(** * Booking coordinator of the ArgoCD booking plugin

    A shallow embedding of [backend/internal/k8s/client.go] (the booking
    coordinator over the Kubernetes dynamic client) and of
    [backend/internal/handler/handler.go] (the HTTP layer), followed by the
    properties of the locking protocol.

    Go strings are byte strings ([string]); Go maps are [gmap]s; a Go [error]
    is [None] for [nil] and [Some msg] for an error whose [Error()] is [msg];
    a Go slice keeps the difference between [nil] and an empty slice. *)

From stdpp Require Import base strings gmap list.
From Stdlib Require Import ZArith Ascii.

Local Open Scope string_scope.
Local Open Scope list_scope.
Local Open Scope stdpp_scope.

(** ** Go values *)

(** [error]: [None] is [nil], [Some msg] an error with message [msg]. *)
Definition error : Type := option string.

(** A slice of [A]: [None] is the [nil] slice, [Some l] a slice with backing
    storage and elements [l]. *)
Definition slice (A : Type) : Type := option (list A).

Definition slice_items {A} (s : slice A) : list A := default [] s.

(** [append(s, x)] *)
Definition slice_append {A} (s : slice A) (x : A) : slice A :=
  Some (slice_items s ++ [x]).

(** [m[k]] on a [map[string]string]: the zero value when the key is absent. *)
Definition map_index (m : gmap string string) (k : string) : string :=
  default "" (m !! k).

(** [strings.Contains(s, substr)] *)
Fixpoint strings_Contains (s substr : string) : bool :=
  String.prefix substr s ||
  match s with
  | EmptyString => false
  | String _ s' => strings_Contains s' substr
  end.

(** The text before and after the first occurrence of [sep], if any. *)
Fixpoint cut (sep : ascii) (s : string) : option (string * string) :=
  match s with
  | EmptyString => None
  | String c s' =>
      if decide (c = sep) then Some (EmptyString, s')
      else match cut sep s' with
           | Some (before, after) => Some (String c before, after)
           | None => None
           end
  end.

(** [strings.SplitN(s, sep, 2)] for a one-byte separator. *)
Definition strings_SplitN2 (s : string) (sep : ascii) : list string :=
  match cut sep s with
  | Some (before, after) => [before; after]
  | None => [s]
  end.

(** [strings.Split(s, sep)] for a one-byte separator. *)
Fixpoint strings_Split (s : string) (sep : ascii) : list string :=
  match s with
  | EmptyString => [EmptyString]
  | String c s' =>
      if decide (c = sep) then EmptyString :: strings_Split s' sep
      else match strings_Split s' sep with
           | part :: parts => String c part :: parts
           | [] => [String c EmptyString]
           end
  end.

(** The operations of the libraries the program calls that are not part of
    the repository: package [time], [strings.TrimSpace], the text
    [encoding/json] writes for a string, and the text of the store's
    not-found error. They are kept abstract; [RefLib] below is an executable
    instance. *)
Class GoLib := {
  Time : Type;
  (** [time.Time{}] *)
  time_Zero : Time;
  (** [t.UTC()] *)
  time_UTC : Time → Time;
  (** [t.Format(layout)] *)
  time_Format : string → Time → string;
  (** [time.Parse(layout, value)]; on an error Go returns [time.Time{}]. *)
  time_Parse : string → string → option Time;
  (** [strings.TrimSpace(s)] *)
  strings_TrimSpace : string → string;
  (** The string a document written by [json.Marshal] holds for the Go string
      [s]: the encoder replaces every byte of [s] that is not part of valid
      UTF-8 by U+FFFD and writes the rest as it is. *)
  json_String : string → string;
  (** The [Error()] text of the error the store returns for an Application
      [name] that does not exist. *)
  errors_NotFound : string → string;
}.

(** [time.RFC3339] *)
Definition time_RFC3339 : string := "2006-01-02T15:04:05Z07:00".

(** ** Package k8s *)

Module k8s.

Definition AnnotationBookedBy : string := "booking.argocd.io/booked-by".
Definition AnnotationBookedAt : string := "booking.argocd.io/booked-at".

(** [Booking] represents the booking state of an Application. *)
Record Booking := mkBooking {
  AppName : string;
  Namespace : string;
  BookedBy : string;
  BookedAt : string;
}.

Global Instance Booking_eq_dec : EqDecision Booking.
Proof. solve_decision. Defined.

(** *** The dynamic client

    The resource store behind [dynamic.Interface], as the object tracker of
    the fake dynamic client the package's tests run against: Application
    objects keyed by namespace and name, each with its annotations ([None]
    when the object has no annotation map), and the record of the actions
    performed. Failures of the transport are outside this model; a missing
    object is reported as an error. *)

Inductive Verb := VerbGet | VerbPatch | VerbList.

Global Instance Verb_eq_dec : EqDecision Verb.
Proof. solve_decision. Defined.

Record Action := mkAction {
  actVerb : Verb;
  actNamespace : string;
  actName : string;
}.

Global Instance Action_eq_dec : EqDecision Action.
Proof. solve_decision. Defined.

Record Unstructured := mkUnstructured {
  GetNamespace : string;
  GetName : string;
  GetAnnotations : option (gmap string string);
}.

Record Cluster := mkCluster {
  objects : gmap (string * string) (option (gmap string string));
  actions : list Action;
}.

(** [metav1.NamespaceAll]: listing in the empty namespace lists every
    namespace. *)
Definition NamespaceAll : string := "".

Definition in_scope (namespace : string) (key : string * string) : Prop :=
  namespace = NamespaceAll ∨ key.1 = namespace.

Global Instance in_scope_dec namespace key : Decision (in_scope namespace key).
Proof. unfold in_scope. apply _. Defined.

Definition record (a : Action) (c : Cluster) : Cluster :=
  {| objects := objects c; actions := actions c ++ [a] |}.

Definition notFound `{GoLib} (name : string) : string := errors_NotFound name.

(** [Resource(applicationGVR).Namespace(namespace).Get(ctx, name, ...)] *)
Definition dyn_Get `{GoLib} (namespace name : string) (c : Cluster)
  : Cluster * (Unstructured + string) :=
  let c' := record (mkAction VerbGet namespace name) c in
  match objects c !! (namespace, name) with
  | Some anns => (c', inl (mkUnstructured namespace name anns))
  | None => (c', inr (notFound name))
  end.

(** A JSON merge patch on [metadata.annotations]: each member is a string
    to set or [null] ([None]) to remove the key. *)
Definition apply_patch (patch : gmap string (option string))
    (anns : option (gmap string string)) : option (gmap string string) :=
  Some (merge (λ old new, match new with Some v => v | None => old end)
          (default ∅ anns) patch).

(** [Resource(applicationGVR).Namespace(namespace).Patch(ctx, name,
    types.MergePatchType, patch, ...)] *)
Definition dyn_Patch `{GoLib} (namespace name : string)
    (patch : gmap string (option string)) (c : Cluster)
  : Cluster * (Unstructured + string) :=
  match objects c !! (namespace, name) with
  | Some anns =>
      let anns' := apply_patch patch anns in
      ({| objects := <[(namespace, name) := anns']> (objects c);
          actions := actions c ++ [mkAction VerbPatch namespace name] |},
       inl (mkUnstructured namespace name anns'))
  | None =>
      (record (mkAction VerbPatch namespace name) c, inr (notFound name))
  end.

(** The object stored under a key. *)
Definition itemOf (kv : string * string * option (gmap string string))
  : Unstructured :=
  mkUnstructured kv.1.1 kv.1.2 kv.2.

(** [Resource(applicationGVR).Namespace(namespace).List(ctx, ...)]: the
    items of the returned list. *)
Definition dyn_List (namespace : string) (c : Cluster)
  : Cluster * (list Unstructured + string) :=
  (record (mkAction VerbList namespace "") c,
   inl (itemOf <$>
        filter (λ kv, in_scope namespace kv.1) (map_to_list (objects c)))).

Section client.
Context `{GoLib}.

(** *** The booking coordinator ([client]) *)

Definition GetBookingStatus (namespace appName : string) (c : Cluster)
  : Cluster * (string * Time * error) :=
  let '(c, r) := dyn_Get namespace appName c in
  match r with
  | inr err =>
      (c, ("", time_Zero,
           Some ("failed to get application " +:+ namespace +:+ "/" +:+
                 appName +:+ ": " +:+ err)))
  | inl app =>
      match GetAnnotations app with
      | None => (c, ("", time_Zero, None))
      | Some annotations =>
          let bookedBy := map_index annotations AnnotationBookedBy in
          if bool_decide (bookedBy = "") then (c, ("", time_Zero, None))
          else
            let bookedAt :=
              default time_Zero
                (time_Parse time_RFC3339
                   (map_index annotations AnnotationBookedAt)) in
            (c, (bookedBy, bookedAt, None))
      end
  end.

(** [now] is the reading of [time.Now()]. The patch document is what
    [json.Marshal] writes for the map: each of its two strings as
    [json_String] gives it. [json.Marshal] of a map of strings returns no
    error, so that branch is left out. *)
Definition BookApp (now : Time) (namespace appName username : string)
    (c : Cluster) : Cluster * error :=
  let '(c, (bookedBy, _, err)) := GetBookingStatus namespace appName c in
  match err with
  | Some e => (c, Some e)
  | None =>
      if bool_decide (bookedBy ≠ "") && bool_decide (bookedBy ≠ username)
      then (c, Some ("conflict: application already booked by " +:+ bookedBy))
      else if bool_decide (bookedBy = username)
      then (c, None) (* already booked by the same user *)
      else
        let now := time_Format time_RFC3339 (time_UTC now) in
        let patchBytes : gmap string (option string) :=
          {[ AnnotationBookedBy := Some (json_String username);
             AnnotationBookedAt := Some (json_String now) ]} in
        let '(c, r) := dyn_Patch namespace appName patchBytes c in
        match r with
        | inr e =>
            (c, Some ("failed to patch application " +:+ namespace +:+ "/" +:+
                      appName +:+ ": " +:+ e))
        | inl _ => (c, None)
        end
  end.

Definition UnbookApp (namespace appName username : string) (isAdmin : bool)
    (c : Cluster) : Cluster * error :=
  let '(c, (bookedBy, _, err)) := GetBookingStatus namespace appName c in
  match err with
  | Some e => (c, Some e)
  | None =>
      if bool_decide (bookedBy = "") then (c, None) (* not booked *)
      else if bool_decide (bookedBy ≠ username) && negb isAdmin
      then (c, Some ("forbidden: application is booked by " +:+ bookedBy +:+
                     ", only they or an admin can unbook"))
      else
        (* Remove annotations by setting them to null via JSON merge patch *)
        let patch : gmap string (option string) :=
          {[ AnnotationBookedBy := None; AnnotationBookedAt := None ]} in
        let '(c, r) := dyn_Patch namespace appName patch c in
        match r with
        | inr e =>
            (c, Some ("failed to patch application " +:+ namespace +:+ "/" +:+
                      appName +:+ ": " +:+ e))
        | inl _ => (c, None)
        end
  end.

Definition extractBooking (app : Unstructured) : option Booking :=
  match GetAnnotations app with
  | None => None
  | Some annotations =>
      let bookedBy := map_index annotations AnnotationBookedBy in
      if bool_decide (bookedBy = "") then None
      else Some {| AppName := GetName app;
                   Namespace := GetNamespace app;
                   BookedBy := bookedBy;
                   BookedAt := map_index annotations AnnotationBookedAt |}
  end.

Definition ListBookings (namespace : string) (c : Cluster)
  : Cluster * (slice Booking * error) :=
  let '(c, r) := dyn_List namespace c in
  match r with
  | inr err =>
      (c, (None, Some ("failed to list applications in " +:+ namespace +:+
                       ": " +:+ err)))
  | inl items =>
      (c, (foldl (λ bookings item,
                    match extractBooking item with
                    | Some b => slice_append bookings b
                    | None => bookings
                    end) None items,
           None))
  end.

(** A call on the coordinator that may write, and a sequence of such calls
    made one after the other. *)
Inductive Op :=
  | OpBook (now : Time) (namespace appName username : string)
  | OpUnbook (namespace appName username : string) (isAdmin : bool).

Definition run (op : Op) (c : Cluster) : Cluster * error :=
  match op with
  | OpBook now namespace appName username =>
      BookApp now namespace appName username c
  | OpUnbook namespace appName username isAdmin =>
      UnbookApp namespace appName username isAdmin c
  end.

Definition run_all (ops : list Op) (c : Cluster) : Cluster :=
  foldl (λ c op, (run op c).1) c ops.

(** [op] is a release of the resource [key] by [holder] or by a privileged
    caller. *)
Definition releases (key : string * string) (holder : string) (op : Op)
  : Prop :=
  match op with
  | OpBook _ _ _ _ => False
  | OpUnbook namespace appName username isAdmin =>
      (namespace, appName) = key ∧ (username = holder ∨ isAdmin = true)
  end.

(** [op] is an acquire of the resource [key] by a caller with a non-empty
    identity. *)
Definition acquires (key : string * string) (op : Op) : Prop :=
  match op with
  | OpBook _ namespace appName username =>
      (namespace, appName) = key ∧ username ≠ ""
  | OpUnbook _ _ _ _ => False
  end.

End client.

(** *** Lock state of a resource (the spec's data model)

    A resource is Unlocked when its holder annotation is absent or empty and
    Held by the holder otherwise; the acquired-at field is carried as the
    annotation holds it (empty when absent). *)

Inductive LockState :=
  | Unlocked
  | Held (holder acquiredAt : string).

Global Instance LockState_eq_dec : EqDecision LockState.
Proof. solve_decision. Defined.

Definition lock_of (anns : option (gmap string string)) : LockState :=
  match anns with
  | None => Unlocked
  | Some m =>
      match m !! AnnotationBookedBy with
      | None => Unlocked
      | Some holder =>
          if bool_decide (holder = "") then Unlocked
          else Held holder (map_index m AnnotationBookedAt)
      end
  end.

(** The lock state of the resource [namespace/appName]; [None] when the
    resource does not exist. *)
Definition lock_state (c : Cluster) (namespace appName : string)
  : option LockState :=
  lock_of <$> objects c !! (namespace, appName).

(** A patch that speaks of the two booking annotations only. *)
Definition booking_patch (patch : gmap string (option string)) : Prop :=
  ∀ k, k ≠ AnnotationBookedBy → k ≠ AnnotationBookedAt → patch !! k = None.

(** The resource key of a booking record. *)
Definition keyOf (b : Booking) : string * string := (Namespace b, AppName b).

(** The actions of [c'] that were not yet in [c]. *)
Definition issued (c c' : Cluster) : list Action :=
  drop (length (actions c)) (actions c').

(** The outcomes Conflict and Forbidden, recognised in an error the way the
    HTTP layer recognises them. *)
Definition Conflict (e : error) : Prop :=
  ∃ msg, e = Some msg ∧ strings_Contains msg "conflict:" = true.

Definition Forbidden (e : error) : Prop :=
  ∃ msg, e = Some msg ∧ strings_Contains msg "forbidden:" = true.

Section partial.
Context `{GoLib}.

(** The holder field is present while the acquired-at field is absent or
    does not parse. *)
Definition partially_populated (c : Cluster) (namespace appName holder : string)
  : Prop :=
  ∃ m, objects c !! (namespace, appName) = Some (Some m) ∧
       m !! AnnotationBookedBy = Some holder ∧
       (m !! AnnotationBookedAt = None ∨
        time_Parse time_RFC3339 (map_index m AnnotationBookedAt) = None).

(** A partially populated record counts as unlocked when the coordinator
    authorizes: no Conflict for another caller's acquire, no Forbidden for a
    release by a caller who is neither the holder nor privileged. *)
Definition unlocked_equivalent : Prop :=
  ∀ (now : Time) (c : Cluster) (namespace appName holder caller : string),
    partially_populated c namespace appName holder →
    caller ≠ holder →
    ¬ Conflict (BookApp now namespace appName caller c).2 ∧
    ¬ Forbidden (UnbookApp namespace appName caller false c).2.

End partial.

End k8s.

(** ** Package handler *)

Module handler.

Definition headerAppName : string := "Argocd-Application-Name".
Definition headerUsername : string := "Argocd-Username".
Definition headerUserGroups : string := "Argocd-User-Groups".

Definition adminGroup : string := "admin".

Definition StatusOK : Z := 200.
Definition StatusBadRequest : Z := 400.
Definition StatusForbidden : Z := 403.
Definition StatusConflict : Z := 409.
Definition StatusInternalServerError : Z := 500.

(** JSON documents, as [encoding/json] writes the values the handlers
    encode. *)
#[local] Unset Elimination Schemes.
Inductive json :=
  | JNull
  | JBool (b : bool)
  | JString (s : string)
  | JArray (elems : list json)
  | JObject (members : list (string * json)).
#[local] Set Elimination Schemes.

Record statusResponse := mkStatusResponse {
  Booked : bool;
  BookedBy : string;
  BookedAt : string;
}.

Record errorResponse := mkErrorResponse {
  Error : string;
}.

(** A member tagged [omitempty] is left out when the string is empty. *)
Definition omitempty (name value : string) : list (string * json) :=
  if bool_decide (value = "") then [] else [(name, JString value)].

Definition encode_statusResponse (v : statusResponse) : json :=
  JObject ([("booked", JBool (Booked v))] ++
           omitempty "bookedBy" (BookedBy v) ++
           omitempty "bookedAt" (BookedAt v)).

Definition encode_errorResponse (v : errorResponse) : json :=
  JObject [("error", JString (Error v))].

Definition encode_Booking (b : k8s.Booking) : json :=
  JObject [("appName", JString (k8s.AppName b));
           ("namespace", JString (k8s.Namespace b));
           ("bookedBy", JString (k8s.BookedBy b));
           ("bookedAt", JString (k8s.BookedAt b))].

(** A [nil] slice is encoded as [null], any other slice as an array. *)
Definition encode_Bookings (bookings : slice k8s.Booking) : json :=
  match bookings with
  | None => JNull
  | Some l => JArray (encode_Booking <$> l)
  end.

(** What a handler wrote to the [http.ResponseWriter]. *)
Inductive body :=
  | JSONBody (v : json)
  | TextBody (s : string).

Record Response := mkResponse {
  Code : Z;
  ContentType : option string;
  Body : body;
}.

(** The parts of an [http.Request] the handlers read: the header (keys in
    canonical form) and the parsed URL query. *)
Record Request := mkRequest {
  Header : gmap string (list string);
  URLQuery : gmap string (list string);
}.

(** [Header.Get] and [url.Values.Get]: the first value of the key, or the
    empty string when there is none. *)
Definition Get (values : gmap string (list string)) (key : string) : string :=
  match values !! key with
  | Some (v :: _) => v
  | _ => ""
  end.

(** The calls a handler makes on its client. *)
Inductive Call :=
  | CallGetBookingStatus (namespace appName : string)
  | CallBookApp (namespace appName username : string)
  | CallUnbookApp (namespace appName username : string) (isAdmin : bool)
  | CallListBookings (namespace : string).

(** The outcome of serving a request: the response, the state of the client
    afterwards and the calls made on the client. *)
Record Served (S : Type) := mkServed {
  response : Response;
  after : S;
  calls : list Call;
}.
Arguments mkServed {S} _ _ _.
Arguments response {S} _.
Arguments after {S} _.
Arguments calls {S} _.

Definition writeJSON (status : Z) (v : json) : Response :=
  {| Code := status; ContentType := Some "application/json";
     Body := JSONBody v |}.

Definition writeError (status : Z) (msg : string) : Response :=
  writeJSON status (encode_errorResponse {| Error := msg |}).

(** [parseAppHeader] parses the Argocd-Application-Name header in the format
    namespace:appname. *)
Definition parseAppHeader (r : Request) : string * string * bool :=
  let raw := Get (Header r) headerAppName in
  if bool_decide (raw = "") then ("", "", false)
  else
    match strings_SplitN2 raw ":" with
    | [p0; p1] =>
        if bool_decide (p0 = "") || bool_decide (p1 = "")
        then ("", "", false)
        else (p0, p1, true)
    | _ => ("", "", false)
    end.

Section handlers.
Context `{GoLib}.

(** [k8s.Client]: the operations on Application annotations, over the state
    [S] of whatever implements them. *)
Record Client (S : Type) := mkClient {
  Client_GetBookingStatus : string → string → S → S * (string * Time * error);
  Client_BookApp : string → string → string → S → S * error;
  Client_UnbookApp : string → string → string → bool → S → S * error;
  Client_ListBookings : string → S → S * (slice k8s.Booking * error);
}.
Arguments Client_GetBookingStatus {S} _ _ _ _.
Arguments Client_BookApp {S} _ _ _ _ _.
Arguments Client_UnbookApp {S} _ _ _ _ _ _.
Arguments Client_ListBookings {S} _ _ _.

Definition isAdmin (r : Request) : bool :=
  let groups := Get (Header r) headerUserGroups in
  existsb (λ g, bool_decide (strings_TrimSpace g = adminGroup))
    (strings_Split groups ",").

Context {S : Type} (client : Client S).

(** [Status] returns the booking status of an application. *)
Definition Status (r : Request) (st : S) : Served S :=
  let '(ns, app, ok) := parseAppHeader r in
  if negb ok then
    mkServed
      (writeError StatusBadRequest
         "missing or invalid Argocd-Application-Name header (expected namespace:appname)")
      st []
  else
    let '(st, (bookedBy, bookedAt, err)) :=
      Client_GetBookingStatus client ns app st in
    let made := [CallGetBookingStatus ns app] in
    match err with
    | Some _ =>
        mkServed
          (writeError StatusInternalServerError "failed to get booking status")
          st made
    | None =>
        let resp :=
          {| Booked := bool_decide (bookedBy ≠ "");
             BookedBy := ""; BookedAt := "" |} in
        let resp :=
          if bool_decide (bookedBy ≠ "") then
            {| Booked := Booked resp; BookedBy := bookedBy;
               BookedAt :=
                 time_Format "2006-01-02T15:04:05Z" (time_UTC bookedAt) |}
          else resp in
        mkServed (writeJSON StatusOK (encode_statusResponse resp)) st made
    end.

(** [Book] books an application for the requesting user. *)
Definition Book (r : Request) (st : S) : Served S :=
  let '(ns, app, ok) := parseAppHeader r in
  if negb ok then
    mkServed
      (writeError StatusBadRequest
         "missing or invalid Argocd-Application-Name header (expected namespace:appname)")
      st []
  else
    let username := Get (Header r) headerUsername in
    if bool_decide (username = "") then
      mkServed (writeError StatusBadRequest "missing Argocd-Username header")
        st []
    else
      let '(st, err) := Client_BookApp client ns app username st in
      let made := [CallBookApp ns app username] in
      match err with
      | Some e =>
          if strings_Contains e "conflict:" then
            mkServed (writeError StatusConflict e) st made
          else
            mkServed
              (writeError StatusInternalServerError
                 "failed to book application")
              st made
      | None =>
          mkServed
            (writeJSON StatusOK (JObject [("status", JString "booked")]))
            st made
      end.

(** [Unbook] unbooks an application. *)
Definition Unbook (r : Request) (st : S) : Served S :=
  let '(ns, app, ok) := parseAppHeader r in
  if negb ok then
    mkServed
      (writeError StatusBadRequest
         "missing or invalid Argocd-Application-Name header (expected namespace:appname)")
      st []
  else
    let username := Get (Header r) headerUsername in
    if bool_decide (username = "") then
      mkServed (writeError StatusBadRequest "missing Argocd-Username header")
        st []
    else
      let admin := isAdmin r in
      let '(st, err) := Client_UnbookApp client ns app username admin st in
      let made := [CallUnbookApp ns app username admin] in
      match err with
      | Some e =>
          if strings_Contains e "forbidden:" then
            mkServed (writeError StatusForbidden e) st made
          else
            mkServed
              (writeError StatusInternalServerError
                 "failed to unbook application")
              st made
      | None =>
          mkServed
            (writeJSON StatusOK (JObject [("status", JString "unbooked")]))
            st made
      end.

(** [List] returns all currently booked applications. *)
Definition List (r : Request) (st : S) : Served S :=
  let ns := Get (URLQuery r) "namespace" in
  let ns := if bool_decide (ns = "") then "argocd" else ns in
  let '(st, (bookings, err)) := Client_ListBookings client ns st in
  let made := [CallListBookings ns] in
  match err with
  | Some _ =>
      mkServed
        (writeError StatusInternalServerError "failed to list bookings")
        st made
  | None =>
      let bookings :=
        match bookings with
        | None => Some []
        | Some _ => bookings
        end in
      mkServed (writeJSON StatusOK (encode_Bookings bookings)) st made
  end.

(** [Healthz] is a simple health check endpoint. *)
Definition Healthz (r : Request) (st : S) : Served S :=
  mkServed {| Code := StatusOK; ContentType := None; Body := TextBody "ok" |}
    st [].

End handlers.

Arguments Client {_} S.
Arguments mkClient {_ S} _ _ _ _.
Arguments Client_GetBookingStatus {_ S} _ _ _ _.
Arguments Client_BookApp {_ S} _ _ _ _ _.
Arguments Client_UnbookApp {_ S} _ _ _ _ _ _.
Arguments Client_ListBookings {_ S} _ _ _.

(** [k8s.NewClientFromDynamic]: the coordinator as a [Client] over the
    cluster, with [now] the reading of the wall clock. *)
Definition NewClientFromDynamic `{GoLib} (now : Time) : Client k8s.Cluster :=
  {| Client_GetBookingStatus := k8s.GetBookingStatus;
     Client_BookApp := k8s.BookApp now;
     Client_UnbookApp := k8s.UnbookApp;
     Client_ListBookings := k8s.ListBookings |}.

(** *** The forms of the request signals (the spec's HTTP contract) *)

(** [raw] encodes the resource identity [scope:name]: the scope is the text
    before the first colon, the name the text after it. *)
Definition encodes (raw scope name : string) : Prop :=
  raw = scope +:+ ":" +:+ name ∧ cut ":" scope = None.

(** The resource identity header is present and well formed. *)
Definition identity_ok (r : Request) : Prop :=
  ∃ scope name, encodes (Get (Header r) headerAppName) scope name ∧
                scope ≠ "" ∧ name ≠ "".

(** The caller identity header is absent (it carries no value). *)
Definition caller_absent (r : Request) : Prop :=
  Get (Header r) headerUsername = "".

End handler.

(** ** The presentation client (ui)

    The requests the client issues, as far as the backend reads them. *)

Module ui.

(** BookButton.tsx: the identity sent for an application,
    [`${namespace}:${name}`]. *)
Definition appIdentifier (namespace name : string) : string :=
  namespace +:+ ":" +:+ name.

(** A JavaScript string that may be [undefined] is truthy when it is a
    non-empty string. *)
Definition truthy (v : option string) : bool :=
  match v with
  | Some s => negb (bool_decide (s = ""))
  | None => false
  end.

(** StatusPanel.tsx: the identity, empty while the namespace or the name is
    missing. *)
Definition panelIdentifier (appNamespace appName : option string) : string :=
  if truthy appNamespace && truthy appName
  then appIdentifier (default "" appNamespace) (default "" appName)
  else "".

(** api.ts, [getStatus]: the request for the status. *)
Definition getStatus (appName project : string) : handler.Request :=
  {| handler.Header :=
       {[ "Argocd-Application-Name" := [appName];
          "Argocd-Project-Name" := [project] ]};
     handler.URLQuery := ∅ |}.

(** api.ts, [bookApp] and [unbookApp]: the request to book or to unbook,
    with the user name the session reported. *)
Definition bookApp (appName project username : string) : handler.Request :=
  {| handler.Header :=
       {[ "Argocd-Application-Name" := [appName];
          "Argocd-Project-Name" := [project];
          "Argocd-Username" := [username] ]};
     handler.URLQuery := ∅ |}.

End ui.

(** ** A reference instance of the library operations

    UTC wall-clock times at second precision, written and read in the form
    [YYYY-MM-DDThh:mm:ssZ] that [BookApp] stores, and trimming of ASCII white
    space. The properties below hold for every [GoLib]; this instance makes
    the embedding executable. *)

Module RefLib.

Record CivilTime := mkCivilTime {
  year : Z; month : Z; day : Z;
  hour : Z; minute : Z; second : Z;
}.

Global Instance CivilTime_eq_dec : EqDecision CivilTime.
Proof. solve_decision. Defined.

(** [time.Time{}]: January 1, year 1, 00:00:00 UTC. *)
Definition zero : CivilTime := mkCivilTime 1 1 1 0 0 0.

Definition digit (n : Z) : ascii := ascii_of_N (48 + Z.to_N (n mod 10)).

Definition format2 (n : Z) : string :=
  String (digit (n / 10)) (String (digit n) EmptyString).

Definition format4 (n : Z) : string :=
  String (digit (n / 1000)) (String (digit (n / 100)) (format2 n)).

Definition stamp (t : CivilTime) : string :=
  format4 (year t) +:+ "-" +:+ format2 (month t) +:+ "-" +:+
  format2 (day t) +:+ "T" +:+ format2 (hour t) +:+ ":" +:+
  format2 (minute t) +:+ ":" +:+ format2 (second t) +:+ "Z".

Definition Format (layout : string) (t : CivilTime) : string :=
  if bool_decide (layout = time_RFC3339) ||
     bool_decide (layout = "2006-01-02T15:04:05Z")
  then stamp t else "".

Definition isLeap (y : Z) : bool :=
  (y mod 4 =? 0)%Z && (negb (y mod 100 =? 0)%Z || (y mod 400 =? 0)%Z).

Definition daysIn (m y : Z) : Z :=
  if (m =? 2)%Z then (if isLeap y then 29 else 28)%Z
  else if (m =? 4)%Z || (m =? 6)%Z || (m =? 9)%Z || (m =? 11)%Z then 30%Z
  else 31%Z.

(** An unsigned decimal number within [lo..hi]. *)
Definition parseUint (digits : list ascii) (lo hi : Z) : option Z :=
  n ← foldl (λ acc c, x ← acc; d ← Ascii.is_nat c; Some (x * 10 + Z.of_nat d)%Z)
        (Some 0%Z) digits;
  if bool_decide (lo ≤ n ≤ hi)%Z then Some n else None.

Definition Parse (layout value : string) : option CivilTime :=
  if negb (bool_decide (layout = time_RFC3339)) then None
  else
    match String.list_ascii_of_string value with
    | [y1; y2; y3; y4; "-"; m1; m2; "-"; d1; d2; "T";
       h1; h2; ":"; n1; n2; ":"; s1; s2; "Z"]%char =>
        y ← parseUint [y1; y2; y3; y4] 0 9999;
        m ← parseUint [m1; m2] 1 12;
        d ← parseUint [d1; d2] 1 (daysIn m y);
        h ← parseUint [h1; h2] 0 23;
        n ← parseUint [n1; n2] 0 59;
        s ← parseUint [s1; s2] 0 59;
        Some (mkCivilTime y m d h n s)
    | _ => None
    end.

(** The times that have a four-digit year and name a day and a second that
    exist. *)
Definition valid (t : CivilTime) : Prop :=
  (0 ≤ year t ≤ 9999 ∧ 1 ≤ month t ≤ 12 ∧
   1 ≤ day t ≤ daysIn (month t) (year t) ∧
   0 ≤ hour t ≤ 23 ∧ 0 ≤ minute t ≤ 59 ∧ 0 ≤ second t ≤ 59)%Z.

Fixpoint TrimLeft (s : string) : string :=
  match s with
  | String c s' => if Ascii.is_space c then TrimLeft s' else s
  | EmptyString => EmptyString
  end.

Definition TrimSpace (s : string) : string :=
  String.rev (TrimLeft (String.rev (TrimLeft s))).

(** The bytes of U+FFFD in UTF-8. *)
Definition replacement : string :=
  String "239" (String "191" (String "189" EmptyString)).

(** The rest of [s] after a first byte within [lo..hi]. *)
Definition continue (lo hi : N) (s : string) : option string :=
  match s with
  | String c rest =>
      if (lo <=? N_of_ascii c)%N && (N_of_ascii c <=? hi)%N
      then Some rest else None
  | EmptyString => None
  end.

(** The length of the UTF-8 sequence at the head of [s], when [s] starts
    with a valid one (no overlong form, no surrogate, at most U+10FFFF). *)
Definition runeLen (s : string) : option nat :=
  match s with
  | EmptyString => None
  | String c rest =>
      let b := N_of_ascii c in
      if (b <? 128)%N then Some 1
      else if (194 <=? b)%N && (b <=? 223)%N then
        _ ← continue 128 191 rest; Some 2
      else if (b =? 224)%N then
        r ← continue 160 191 rest; _ ← continue 128 191 r; Some 3
      else if (b =? 237)%N then
        r ← continue 128 159 rest; _ ← continue 128 191 r; Some 3
      else if (225 <=? b)%N && (b <=? 239)%N then
        r ← continue 128 191 rest; _ ← continue 128 191 r; Some 3
      else if (b =? 240)%N then
        r ← continue 144 191 rest; r ← continue 128 191 r;
        _ ← continue 128 191 r; Some 4
      else if (241 <=? b)%N && (b <=? 243)%N then
        r ← continue 128 191 rest; r ← continue 128 191 r;
        _ ← continue 128 191 r; Some 4
      else if (b =? 244)%N then
        r ← continue 128 143 rest; r ← continue 128 191 r;
        _ ← continue 128 191 r; Some 4
      else None
  end.

(** [pending] bytes of a valid sequence are still to be copied; after them,
    a valid sequence is copied and any other byte becomes U+FFFD. *)
Fixpoint coerce (pending : nat) (s : string) : string :=
  match s with
  | EmptyString => EmptyString
  | String c rest =>
      match pending with
      | S n => String c (coerce n rest)
      | O =>
          match runeLen s with
          | Some (S n) => String c (coerce n rest)
          | _ => replacement +:+ coerce 0 rest
          end
      end
  end.

Definition jsonString (s : string) : string := coerce 0 s.

Definition quote : string := String "034"%char EmptyString.

(** The store's not-found text, for a name written as it is between the
    quotes. *)
Definition NotFound (name : string) : string :=
  "applications.argoproj.io " +:+ quote +:+ name +:+ quote +:+ " not found".

Definition lib : GoLib :=
  {| Time := CivilTime;
     time_Zero := zero;
     time_UTC := id;
     time_Format := Format;
     time_Parse := Parse;
     strings_TrimSpace := TrimSpace;
     json_String := jsonString;
     errors_NotFound := NotFound |}.

End RefLib.

(** ** Sample data *)

Module Sample.

Definition at10 : RefLib.CivilTime := RefLib.mkCivilTime 2026 1 15 10 0 0.

Definition annotated (by_ at_ : string) : option (gmap string string) :=
  Some {[ k8s.AnnotationBookedBy := by_; k8s.AnnotationBookedAt := at_ ]}.

(** One Application, [argocd/my-app], with the given annotations. *)
Definition cluster (anns : option (gmap string string)) : k8s.Cluster :=
  {| k8s.objects := {[ ("argocd", "my-app") := anns ]}; k8s.actions := [] |}.

Definition free : k8s.Cluster := cluster None.
Definition byAlice : k8s.Cluster :=
  cluster (annotated "alice" "2026-01-15T10:00:00Z").
(** A holder without a timestamp. *)
Definition partial : k8s.Cluster :=
  cluster (Some {[ k8s.AnnotationBookedBy := "alice" ]}).

(** The three Applications of the package's listing test. *)
Definition three : k8s.Cluster :=
  {| k8s.objects :=
       {[ ("argocd", "app1") := annotated "alice" "2026-01-15T10:00:00Z";
          ("argocd", "app2") := None;
          ("argocd", "app3") := annotated "bob" "2026-01-15T11:00:00Z" ]};
     k8s.actions := [] |}.

Definition request (headers : list (string * string)) : handler.Request :=
  {| handler.Header := list_to_map ((λ kv, (kv.1, [kv.2])) <$> headers);
     handler.URLQuery := ∅ |}.

End Sample.

(** * Properties of the booking coordinator *)

Section coordinator.
Context `{GoLib}.
Import k8s.

Implicit Types (c : Cluster) (anns : option (gmap string string)).
Implicit Types (namespace appName username holder : string).

(** What a query reports for a lock state. *)
Lemma GetBookingStatus_found namespace appName c anns :
  objects c !! (namespace, appName) = Some anns →
  GetBookingStatus namespace appName c =
    (record (mkAction VerbGet namespace appName) c,
     match lock_of anns with
     | Unlocked => ("", time_Zero, None)
     | Held holder acquiredAt =>
         (holder, default time_Zero (time_Parse time_RFC3339 acquiredAt), None)
     end).
Proof.
  intros Hobj. unfold GetBookingStatus, dyn_Get. rewrite Hobj. cbn.
  destruct anns as [m|]; cbn; [|done].
  unfold map_index.
  destruct (m !! AnnotationBookedBy) as [h|]; cbn; [|done].
  by case_bool_decide.
Qed.

Lemma GetBookingStatus_missing namespace appName c :
  objects c !! (namespace, appName) = None →
  GetBookingStatus namespace appName c =
    (record (mkAction VerbGet namespace appName) c,
     ("", time_Zero,
      Some ("failed to get application " +:+ namespace +:+ "/" +:+ appName +:+
            ": " +:+ notFound appName))).
Proof. intros Hobj. unfold GetBookingStatus, dyn_Get. by rewrite Hobj. Qed.

Lemma lock_state_Some c namespace appName s :
  lock_state c namespace appName = Some s ↔
  ∃ anns, objects c !! (namespace, appName) = Some anns ∧ lock_of anns = s.
Proof.
  unfold lock_state. destruct (objects c !! _) as [anns|]; cbn; split.
  - intros [= <-]. eauto.
  - by intros (? & [= <-] & <-).
  - done.
  - by intros (? & ? & _).
Qed.

Lemma lock_of_Held anns holder acquiredAt :
  lock_of anns = Held holder acquiredAt → holder ≠ "".
Proof.
  destruct anns as [m|]; cbn; [|done].
  destruct (m !! AnnotationBookedBy) as [h|]; [|done].
  case_bool_decide; naive_solver.
Qed.

Lemma issued_record a c : issued c (record a c) = [a].
Proof. unfold issued, record. cbn. apply drop_app_length. Qed.

Lemma lock_state_record a c namespace appName :
  lock_state (record a c) namespace appName = lock_state c namespace appName.
Proof. done. Qed.

(** The annotations after patching are those of the merge patch. *)
Lemma lookup_apply_patch patch anns m k :
  apply_patch patch anns = Some m →
  m !! k = match patch !! k with
           | Some v => v
           | None => default ∅ anns !! k
           end.
Proof.
  unfold apply_patch. intros [= <-]. rewrite lookup_merge.
  destruct (default ∅ anns !! k), (patch !! k); done.
Qed.

Lemma AnnotationBookedBy_neq_At : AnnotationBookedBy ≠ AnnotationBookedAt.
Proof. done. Qed.

(** An acquire that finds the resource held by the caller, or by nobody
    while the caller is the empty string, returns before any patch. *)
Lemma BookApp_same now namespace appName username c anns :
  objects c !! (namespace, appName) = Some anns →
  match lock_of anns with
  | Unlocked => username = ""
  | Held holder _ => holder = username
  end →
  BookApp now namespace appName username c =
    (record (mkAction VerbGet namespace appName) c, None).
Proof.
  intros Hobj Hsame. unfold BookApp.
  rewrite (GetBookingStatus_found _ _ _ _ Hobj).
  destruct (lock_of anns) as [|h ts] eqn:Hlock; subst; cbn.
  - done.
  - rewrite (bool_decide_eq_false_2 (username ≠ username)) by naive_solver.
    rewrite andb_false_r. by rewrite bool_decide_eq_true_2.
Qed.

Lemma BookApp_other now namespace appName username c anns holder acquiredAt :
  objects c !! (namespace, appName) = Some anns →
  lock_of anns = Held holder acquiredAt →
  holder ≠ username →
  BookApp now namespace appName username c =
    (record (mkAction VerbGet namespace appName) c,
     Some ("conflict: application already booked by " +:+ holder)).
Proof.
  intros Hobj Hlock Hne. unfold BookApp.
  rewrite (GetBookingStatus_found _ _ _ _ Hobj), Hlock. cbn.
  pose proof (lock_of_Held _ _ _ Hlock).
  rewrite (bool_decide_eq_true_2 (holder ≠ "")) by done.
  by rewrite (bool_decide_eq_true_2 (holder ≠ username)) by done.
Qed.

Lemma BookApp_free now namespace appName username c anns :
  objects c !! (namespace, appName) = Some anns →
  lock_of anns = Unlocked →
  username ≠ "" →
  BookApp now namespace appName username c =
    ({| objects :=
          <[(namespace, appName) :=
              apply_patch
                {[ AnnotationBookedBy := Some (json_String username);
                   AnnotationBookedAt :=
                     Some (json_String
                           (time_Format time_RFC3339 (time_UTC now))) ]} anns]>
            (objects c);
        actions := actions c ++ [mkAction VerbGet namespace appName;
                                 mkAction VerbPatch namespace appName] |},
     None).
Proof.
  intros Hobj Hlock Hne. unfold BookApp.
  rewrite (GetBookingStatus_found _ _ _ _ Hobj), Hlock. cbn.
  rewrite (bool_decide_eq_false_2 ("" = username)) by naive_solver.
  unfold dyn_Patch. cbn. rewrite Hobj. cbn.
  by rewrite <-(assoc_L (++)).
Qed.

Lemma UnbookApp_free namespace appName username isAdmin c anns :
  objects c !! (namespace, appName) = Some anns →
  lock_of anns = Unlocked →
  UnbookApp namespace appName username isAdmin c =
    (record (mkAction VerbGet namespace appName) c, None).
Proof.
  intros Hobj Hlock. unfold UnbookApp.
  by rewrite (GetBookingStatus_found _ _ _ _ Hobj), Hlock.
Qed.

Lemma UnbookApp_refused namespace appName username c anns holder acquiredAt :
  objects c !! (namespace, appName) = Some anns →
  lock_of anns = Held holder acquiredAt →
  holder ≠ username →
  UnbookApp namespace appName username false c =
    (record (mkAction VerbGet namespace appName) c,
     Some ("forbidden: application is booked by " +:+ holder +:+
           ", only they or an admin can unbook")).
Proof.
  intros Hobj Hlock Hne. unfold UnbookApp.
  rewrite (GetBookingStatus_found _ _ _ _ Hobj), Hlock. cbn.
  pose proof (lock_of_Held _ _ _ Hlock).
  rewrite bool_decide_eq_false_2 by done.
  by rewrite bool_decide_eq_true_2.
Qed.

Lemma UnbookApp_allowed namespace appName username isAdmin c anns holder acquiredAt :
  objects c !! (namespace, appName) = Some anns →
  lock_of anns = Held holder acquiredAt →
  holder = username ∨ isAdmin = true →
  UnbookApp namespace appName username isAdmin c =
    ({| objects :=
          <[(namespace, appName) :=
              apply_patch
                {[ AnnotationBookedBy := None; AnnotationBookedAt := None ]}
                anns]> (objects c);
        actions := actions c ++ [mkAction VerbGet namespace appName;
                                 mkAction VerbPatch namespace appName] |},
     None).
Proof.
  intros Hobj Hlock Hok. unfold UnbookApp.
  rewrite (GetBookingStatus_found _ _ _ _ Hobj), Hlock. cbn.
  pose proof (lock_of_Held _ _ _ Hlock).
  rewrite bool_decide_eq_false_2 by done.
  assert (bool_decide (holder ≠ username) && negb isAdmin = false) as ->.
  { destruct Hok as [->| ->]; [|by rewrite andb_false_r].
    by rewrite bool_decide_eq_false_2 by naive_solver. }
  unfold dyn_Patch. cbn. rewrite Hobj. cbn.
  by rewrite <-(assoc_L (++)).
Qed.

End coordinator.

Section acquire_release.
Context `{GoLib}.
Import k8s.

Implicit Types (c : Cluster) (now : Time).
Implicit Types (namespace appName username holder : string).


(** C2. Acquire on a resource held by somebody else fails with Conflict; the
    error names the holder, only the read reaches the store, and the resource
    stays as it was. *)
Theorem BookApp_held_by_other_conflict now namespace appName c
    (u1 u2 acquiredAt : string) :
  lock_state c namespace appName = Some (Held u1 acquiredAt) →
  u1 ≠ u2 →
  let result := BookApp now namespace appName u2 c in
  result.2 = Some ("conflict: application already booked by " +:+ u1) ∧
  Conflict result.2 ∧
  issued c result.1 = [mkAction VerbGet namespace appName] ∧
  objects result.1 = objects c ∧
  lock_state result.1 namespace appName = Some (Held u1 acquiredAt).
Proof.
  intros Hstate Hne result. subst result.
  pose proof Hstate as (anns & Hobj & Hlock)%lock_state_Some.
  rewrite (BookApp_other _ _ _ _ _ _ _ _ Hobj Hlock Hne). cbn [fst snd].
  split_and!; [done| |apply issued_record|done|done].
  eexists. split; [done|]. done.
Qed.

(** C3. Acquire by the current holder succeeds and leaves the holder
    unchanged. *)
Theorem BookApp_same_holder_idempotent now namespace appName c
    (u acquiredAt : string) :
  lock_state c namespace appName = Some (Held u acquiredAt) →
  let result := BookApp now namespace appName u c in
  result.2 = None ∧
  lock_state result.1 namespace appName = Some (Held u acquiredAt).
Proof.
  intros Hstate result. subst result.
  pose proof Hstate as (anns & Hobj & Hlock)%lock_state_Some.
  rewrite (BookApp_same now _ _ u _ _ Hobj); [done|by rewrite Hlock].
Qed.

(** C9. Acquire by the current holder issues no patch: only the read reaches
    the store, every object keeps its metadata, and the acquired-at field
    keeps its value. *)
Theorem BookApp_same_holder_no_patch now namespace appName c
    (u acquiredAt : string) :
  lock_state c namespace appName = Some (Held u acquiredAt) →
  let result := BookApp now namespace appName u c in
  issued c result.1 = [mkAction VerbGet namespace appName] ∧
  objects result.1 = objects c ∧
  (∀ a, a ∈ issued c result.1 → actVerb a ≠ VerbPatch) ∧
  ∃ m, objects result.1 !! (namespace, appName) = Some (Some m) ∧
       m !! AnnotationBookedBy = Some u ∧
       map_index m AnnotationBookedAt = acquiredAt.
Proof.
  intros Hstate result. subst result.
  pose proof Hstate as (anns & Hobj & Hlock)%lock_state_Some.
  rewrite (BookApp_same now _ _ u _ _ Hobj); [|by rewrite Hlock].
  cbn [fst snd]. rewrite issued_record. split_and!; [done|done| |].
  - by intros a ->%list_elem_of_singleton.
  - destruct anns as [m|]; [|done]. exists m. split; [done|].
    cbn in Hlock. destruct (m !! AnnotationBookedBy) as [h|]; [|done].
    case_bool_decide; [done|]. by injection Hlock as -> ->.
Qed.

(** C4. Release of a held resource by its holder or by a privileged caller
    succeeds and one patch removes the holder and the acquired-at field
    together; release by anybody else fails with Forbidden, the error names
    the holder, and nothing changes. *)
Theorem UnbookApp_held namespace appName c (u1 u2 acquiredAt : string)
    (privileged : bool) :
  lock_state c namespace appName = Some (Held u1 acquiredAt) →
  let result := UnbookApp namespace appName u2 privileged c in
  (u2 = u1 ∨ privileged = true →
     result.2 = None ∧
     issued c result.1 = [mkAction VerbGet namespace appName;
                          mkAction VerbPatch namespace appName] ∧
     (∃ m, objects result.1 !! (namespace, appName) = Some (Some m) ∧
           m !! AnnotationBookedBy = None ∧
           m !! AnnotationBookedAt = None) ∧
     lock_state result.1 namespace appName = Some Unlocked) ∧
  (u2 ≠ u1 ∧ privileged = false →
     result.2 = Some ("forbidden: application is booked by " +:+ u1 +:+
                      ", only they or an admin can unbook") ∧
     Forbidden result.2 ∧
     issued c result.1 = [mkAction VerbGet namespace appName] ∧
     objects result.1 = objects c ∧
     lock_state result.1 namespace appName = Some (Held u1 acquiredAt)).
Proof.
  intros Hstate result. subst result.
  pose proof Hstate as (anns & Hobj & Hlock)%lock_state_Some.
  split.
  - intros Hok.
    rewrite (UnbookApp_allowed _ _ u2 privileged _ _ _ _ Hobj Hlock);
      last by (destruct Hok; auto).
    destruct (apply_patch _ anns) as [m|] eqn:Hpatch; [|done].
    assert (m !! AnnotationBookedBy = None) as Hby.
    { rewrite (lookup_apply_patch _ _ _ _ Hpatch).
      by rewrite lookup_insert_eq. }
    assert (m !! AnnotationBookedAt = None) as Hat.
    { rewrite (lookup_apply_patch _ _ _ _ Hpatch).
      rewrite lookup_insert_ne by done. by rewrite lookup_singleton_eq. }
    cbn [fst snd]. split_and!.
    + done.
    + unfold issued. cbn. apply drop_app_length.
    + exists m. cbn. by rewrite lookup_insert_eq.
    + apply lock_state_Some. exists (Some m). cbn.
      rewrite lookup_insert_eq. by rewrite Hby.
  - intros [Hne ->].
    rewrite (UnbookApp_refused _ _ u2 _ _ _ _ Hobj Hlock) by done.
    cbn [fst snd]. split_and!; [done| |apply issued_record|done|done].
    eexists. split; [done|]. done.
Qed.

(** C5. Release of an Unlocked resource succeeds for every caller and every
    privilege value; only the read reaches the store and the resource stays
    Unlocked. *)
Theorem UnbookApp_unlocked_noop namespace appName username c
    (privileged : bool) :
  lock_state c namespace appName = Some Unlocked →
  let result := UnbookApp namespace appName username privileged c in
  result.2 = None ∧
  issued c result.1 = [mkAction VerbGet namespace appName] ∧
  objects result.1 = objects c ∧
  lock_state result.1 namespace appName = Some Unlocked.
Proof.
  intros Hstate result. subst result.
  pose proof Hstate as (anns & Hobj & Hlock)%lock_state_Some.
  rewrite (UnbookApp_free _ _ _ _ _ _ Hobj Hlock). cbn [fst snd].
  by rewrite issued_record.
Qed.

End acquire_release.

Section partial_records.
Context `{GoLib}.
Import k8s.

(** C6 (as the code has it). A resource whose non-empty holder field is
    present while the acquired-at field is absent or unparseable is held by
    that holder when the coordinator authorizes: another caller's acquire
    fails with Conflict and a release by a caller who is neither the holder
    nor privileged fails with Forbidden, both naming the holder. *)
Theorem partially_populated_is_held (now : Time) (c : Cluster)
    (namespace appName holder caller : string) :
  partially_populated c namespace appName holder →
  holder ≠ "" →
  caller ≠ holder →
  (BookApp now namespace appName caller c).2 =
    Some ("conflict: application already booked by " +:+ holder) ∧
  Conflict (BookApp now namespace appName caller c).2 ∧
  (UnbookApp namespace appName caller false c).2 =
    Some ("forbidden: application is booked by " +:+ holder +:+
          ", only they or an admin can unbook") ∧
  Forbidden (UnbookApp namespace appName caller false c).2.
Proof.
  intros (m & Hobj & Hby & _) Hholder Hne.
  assert (lock_of (Some m) = Held holder (map_index m AnnotationBookedAt))
    as Hlock.
  { cbn. rewrite Hby. by rewrite bool_decide_eq_false_2. }
  rewrite (BookApp_other _ _ _ _ _ _ _ _ Hobj Hlock) by done.
  rewrite (UnbookApp_refused _ _ _ _ _ _ _ Hobj Hlock) by done.
  cbn [snd]. split_and!; [done| |done|]; (eexists; split; [done|]; done).
Qed.

End partial_records.

(** C6 (as stated) fails: with holder alice and no acquired-at field, bob's
    acquire is a Conflict and bob's unprivileged release is Forbidden. *)
Lemma unlocked_equivalent_fails :
  k8s.partially_populated (H := RefLib.lib)
    Sample.partial "argocd" "my-app" "alice" ∧
  (k8s.BookApp (H := RefLib.lib) Sample.at10 "argocd" "my-app" "bob"
     Sample.partial).2 =
    Some "conflict: application already booked by alice" ∧
  (k8s.UnbookApp (H := RefLib.lib) "argocd" "my-app" "bob" false
     Sample.partial).2 =
    Some "forbidden: application is booked by alice, only they or an admin can unbook" ∧
  ¬ k8s.unlocked_equivalent (H := RefLib.lib).
Proof.
  assert (k8s.partially_populated (H := RefLib.lib)
            Sample.partial "argocd" "my-app" "alice") as Hpartial.
  { exists {[ k8s.AnnotationBookedBy := "alice" ]}. split_and!.
    - apply lookup_singleton_eq.
    - apply lookup_singleton_eq.
    - left. by apply lookup_singleton_ne. }
  assert ((k8s.BookApp (H := RefLib.lib) Sample.at10 "argocd" "my-app" "bob"
             Sample.partial).2 =
          Some "conflict: application already booked by alice") as Hbook.
  { reflexivity. }
  split_and!; [done|done|reflexivity|].
  intros Hclaim.
  destruct (Hclaim Sample.at10 Sample.partial "argocd" "my-app" "alice" "bob")
    as [Hconflict _]; [done|done|].
  apply Hconflict. rewrite Hbook. by eexists.
Qed.

Section listing.
Import k8s.

(** The loop of [ListBookings] collects the bookings of the items in order. *)
Lemma ListBookings_loop (items : list Unstructured) (bookings : slice Booking) :
  slice_items
    (foldl (λ bookings item,
              match extractBooking item with
              | Some b => slice_append bookings b
              | None => bookings
              end) bookings items) =
  slice_items bookings ++ omap extractBooking items.
Proof.
  revert bookings.
  induction items as [|item items IH]; intros bookings; cbn [foldl].
  - cbn. by rewrite app_nil_r.
  - rewrite IH. cbn. destruct (extractBooking item) as [b|]; cbn; [|done].
    by rewrite <-(assoc_L (++)).
Qed.

Lemma extractBooking_Some (app : Unstructured) (b : Booking) :
  extractBooking app = Some b ↔
  keyOf b = (GetNamespace app, GetName app) ∧
  lock_of (GetAnnotations app) = Held (BookedBy b) (BookedAt b).
Proof.
  unfold extractBooking, keyOf, map_index. destruct b as [n ns by_ at_].
  destruct app as [ans an [m|]]; cbn.
  2: { split; [done|]. by intros [_ ?]. }
  destruct (m !! AnnotationBookedBy) as [h|]; cbn.
  - case_bool_decide as Hh.
    + split; [done|]. by intros [_ ?].
    + split.
      * by intros [= <- <- <- <-].
      * by intros [[= <- <-] [= <- <-]].
  - split; [done|]. by intros [_ ?].
Qed.

Lemma extractBooking_key (app : Unstructured) (b : Booking) :
  extractBooking app = Some b → keyOf b = (GetNamespace app, GetName app).
Proof. by intros [? _]%extractBooking_Some. Qed.

Lemma omap_extractBooking_keys
    (kvs : list (string * string * option (gmap string string))) :
  keyOf <$> omap extractBooking (itemOf <$> kvs) `sublist_of` kvs.*1.
Proof.
  induction kvs as [|kv kvs IH]; cbn; [done|].
  destruct (extractBooking (itemOf kv)) as [b|] eqn:Hb; cbn.
  - rewrite (extractBooking_key _ _ Hb). cbn. rewrite <-surjective_pairing.
    by constructor.
  - by constructor.
Qed.

End listing.

Section listing_claim.
Import k8s.

(** C7. Listing a scope succeeds without touching any object and returns,
    once each, exactly the resources of the scope that are Held: a record is
    returned if and only if its resource key lies in the scope and names a
    resource that is Held by the record's holder with the record's timestamp;
    Unlocked resources (no annotations, no holder field, empty holder) are
    left out. *)
Theorem ListBookings_exactly_held (namespace : string) (c : Cluster) :
  let result := ListBookings namespace c in
  result.2.2 = None ∧
  objects result.1 = objects c ∧
  NoDup (keyOf <$> slice_items result.2.1) ∧
  ∀ b : Booking,
    b ∈ slice_items result.2.1 ↔
    in_scope namespace (keyOf b) ∧
    lock_state c (Namespace b) (AppName b) =
      Some (Held (BookedBy b) (BookedAt b)).
Proof.
  intros result. subst result. unfold ListBookings, dyn_List. cbn [fst snd].
  rewrite ListBookings_loop. cbn [slice_items default app].
  split_and!; [done|done| |].
  - refine (sublist_NoDup _ _ _ (omap_extractBooking_keys _)).
    refine (sublist_NoDup _ _ (NoDup_fst_map_to_list (objects c)) _).
    apply fmap_sublist, sublist_filter.
  - intros b. rewrite list_elem_of_omap. split.
    + intros (app & Happ & Hb).
      apply list_elem_of_fmap in Happ as ([[ns name] anns] & -> & Hkv).
      apply list_elem_of_filter in Hkv as [Hscope Hkv].
      apply elem_of_map_to_list in Hkv.
      apply extractBooking_Some in Hb as [Hkey Hlock]. cbn in *.
      rewrite Hkey. split; [done|].
      injection Hkey as -> ->. apply lock_state_Some. eauto.
    + intros [Hscope (anns & Hobj & Hlock)%lock_state_Some].
      exists (itemOf (keyOf b, anns)). split.
      * apply list_elem_of_fmap. eexists. split; [done|].
        apply list_elem_of_filter. split; [done|].
        by apply elem_of_map_to_list.
      * by apply extractBooking_Some.
Qed.

End listing_claim.

(** * Properties of the HTTP layer *)

Section splitting.
Local Arguments String.append : simpl nomatch.

Lemma cut_app (sep : ascii) (before after : string) :
  cut sep before = None →
  cut sep (before +:+ String sep after) = Some (before, after).
Proof.
  induction before as [|ch before IH]; cbn.
  - intros _. by rewrite decide_True.
  - case_decide; [done|].
    destruct (cut sep before) as [[? ?]|]; [done|]. intros _.
    by rewrite IH.
Qed.

Lemma cut_inv (sep : ascii) (s before after : string) :
  cut sep s = Some (before, after) →
  s = before +:+ String sep after ∧ cut sep before = None.
Proof.
  revert before. induction s as [|ch s IH]; intros before; cbn; [done|].
  case_decide as Hch.
  - subst ch. by intros [= <- <-].
  - destruct (cut sep s) as [[x y]|]; [|done]. intros [= <- <-].
    destruct (IH x eq_refl) as [-> Hx]. cbn.
    rewrite decide_False by done. by rewrite Hx.
Qed.

Lemma cut_Some (sep : ascii) (s before after : string) :
  cut sep s = Some (before, after) ↔
  s = before +:+ String sep after ∧ cut sep before = None.
Proof.
  split; [apply cut_inv|]. intros [-> Hbefore]. by apply cut_app.
Qed.

End splitting.

Section requests.
Import handler.

(** [parseAppHeader] accepts exactly the well-formed resource identities. *)
Lemma encodes_cut (raw scope name : string) :
  encodes raw scope name ↔ cut ":" raw = Some (scope, name).
Proof. symmetry. exact (cut_Some ":" raw scope name). Qed.

Lemma parseAppHeader_ok (r : Request) (ns app : string) :
  parseAppHeader r = (ns, app, true) ↔
  encodes (Get (Header r) headerAppName) ns app ∧ ns ≠ "" ∧ app ≠ "".
Proof.
  unfold parseAppHeader, strings_SplitN2. rewrite encodes_cut.
  set (raw := Get (Header r) headerAppName). clearbody raw.
  case_bool_decide as Hraw.
  - subst raw. cbn. split; [done|]. by intros [? _].
  - destruct (cut ":" raw) as [[p0 p1]|]; [|split; [done|by intros [? _]]].
    destruct (decide (p0 = "")) as [->|Hn0].
    { cbn. split; [done|]. by intros [[= <- <-] [? _]]. }
    rewrite (bool_decide_eq_false_2 (p0 = "")) by done.
    destruct (decide (p1 = "")) as [->|Hn1].
    { cbn. split; [done|]. by intros [[= <- <-] [_ ?]]. }
    rewrite (bool_decide_eq_false_2 (p1 = "")) by done. cbn. split.
    + by intros [= <- <-].
    + by intros [[= <- <-] _].
Qed.

Lemma parseAppHeader_accepts (r : Request) :
  (parseAppHeader r).2 = true ↔ identity_ok r.
Proof.
  split.
  - destruct (parseAppHeader r) as [[ns app] ok] eqn:Hp. cbn. intros ->.
    exists ns, app. by apply parseAppHeader_ok.
  - intros (scope & name & Hok). apply parseAppHeader_ok in Hok.
    by rewrite Hok.
Qed.

End requests.

Section http.
Context `{GoLib} {S : Type} (client : handler.Client S).
Import handler.

Lemma Status_served (r : Request) (st : S) :
  if (parseAppHeader r).2
  then Code (response (Status client r st)) ≠ StatusBadRequest
  else Code (response (Status client r st)) = StatusBadRequest ∧
       calls (Status client r st) = [] ∧ after (Status client r st) = st.
Proof.
  unfold Status. destruct (parseAppHeader r) as [[ns app] [|]]; cbn; [|done].
  destruct (Client_GetBookingStatus client ns app st)
    as [st' [[bookedBy bookedAt] [e|]]]; cbn; done.
Qed.

Lemma Book_served (r : Request) (st : S) :
  if (parseAppHeader r).2 && negb (bool_decide (caller_absent r))
  then Code (response (Book client r st)) ≠ StatusBadRequest
  else Code (response (Book client r st)) = StatusBadRequest ∧
       calls (Book client r st) = [] ∧ after (Book client r st) = st.
Proof.
  unfold Book, caller_absent.
  destruct (parseAppHeader r) as [[ns app] [|]]; cbn; [|done].
  case_bool_decide; cbn; [done|].
  destruct (Client_BookApp client ns app _ st) as [st' [e|]]; cbn; [|done].
  by destruct (strings_Contains e "conflict:").
Qed.

Lemma Unbook_served (r : Request) (st : S) :
  if (parseAppHeader r).2 && negb (bool_decide (caller_absent r))
  then Code (response (Unbook client r st)) ≠ StatusBadRequest
  else Code (response (Unbook client r st)) = StatusBadRequest ∧
       calls (Unbook client r st) = [] ∧ after (Unbook client r st) = st.
Proof.
  unfold Unbook, caller_absent.
  destruct (parseAppHeader r) as [[ns app] [|]]; cbn; [|done].
  case_bool_decide; cbn; [done|].
  destruct (Client_UnbookApp client ns app _ _ st) as [st' [e|]]; cbn; [|done].
  by destruct (strings_Contains e "forbidden:").
Qed.

(** C8. A request for the status is answered 400 exactly when the resource
    identity header is absent or malformed; a request to book or to unbook is
    answered 400 exactly when that holds or the caller identity header is
    absent. Whenever the answer is 400 the client has not been called and
    its state is unchanged. *)
Theorem bad_request_iff (r : Request) (st : S) :
  (Code (response (Status client r st)) = StatusBadRequest ↔
     ¬ identity_ok r) ∧
  (Code (response (Book client r st)) = StatusBadRequest ↔
     ¬ identity_ok r ∨ caller_absent r) ∧
  (Code (response (Unbook client r st)) = StatusBadRequest ↔
     ¬ identity_ok r ∨ caller_absent r) ∧
  (Code (response (Status client r st)) = StatusBadRequest →
     calls (Status client r st) = [] ∧ after (Status client r st) = st) ∧
  (Code (response (Book client r st)) = StatusBadRequest →
     calls (Book client r st) = [] ∧ after (Book client r st) = st) ∧
  (Code (response (Unbook client r st)) = StatusBadRequest →
     calls (Unbook client r st) = [] ∧ after (Unbook client r st) = st).
Proof.
  pose proof (Status_served r st) as HS.
  pose proof (Book_served r st) as HB.
  pose proof (Unbook_served r st) as HU.
  pose proof (parseAppHeader_accepts r) as Hid.
  unfold caller_absent in *.
  destruct (parseAppHeader r).2; cbn in HB, HU.
  - assert (identity_ok r) as Hok by by apply Hid.
    case_bool_decide as Hcaller; cbn in HB, HU.
    + destruct HB as (HB & ? & ?), HU as (HU & ? & ?).
      split_and!; try done; split; auto; by intros [].
    + split_and!; try done; split; try done; by intros [[]|].
  - assert (¬ identity_ok r) as Hbad.
    { intros Hok. by apply Hid in Hok. }
    destruct HS as (HS & ? & ?), HB as (HB & ? & ?), HU as (HU & ? & ?).
    split_and!; try done; split; auto.
Qed.

(** C10. When the client lists no booking, whether as a [nil] slice or as an
    empty one, the list request is answered 200 with the empty JSON array,
    not with [null]. *)
Theorem List_empty_is_array (r : Request) (st st' : S)
    (bookings : slice k8s.Booking) :
  let ns := Get (URLQuery r) "namespace" in
  Client_ListBookings client (if bool_decide (ns = "") then "argocd" else ns)
    st = (st', (bookings, None)) →
  slice_items bookings = [] →
  response (List client r st) = writeJSON StatusOK (JArray []) ∧
  Code (response (List client r st)) = 200%Z ∧
  Body (response (List client r st)) = JSONBody (JArray []) ∧
  Body (response (List client r st)) ≠ JSONBody JNull.
Proof.
  intros ns Hcall Hempty. unfold List. fold ns. rewrite Hcall.
  assert (encode_Bookings
            match bookings with None => Some [] | Some _ => bookings end =
          JArray []) as Henc.
  { destruct bookings as [l|]; [|done]. cbn in Hempty. by subst l. }
  cbn. rewrite Henc. done.
Qed.

End http.

(** * The reference instance *)

Section reference.
Import RefLib.
Local Open Scope Z_scope.
Local Arguments String.append : simpl nomatch.

Lemma is_nat_digit (n : Z) :
  Ascii.is_nat (digit n) = Some (Z.to_nat (n mod 10)).
Proof.
  unfold digit.
  assert (0 ≤ n mod 10 < 10) as Hr by (apply Z.mod_pos_bound; lia).
  assert (n mod 10 = 0 ∨ n mod 10 = 1 ∨ n mod 10 = 2 ∨ n mod 10 = 3 ∨
          n mod 10 = 4 ∨ n mod 10 = 5 ∨ n mod 10 = 6 ∨ n mod 10 = 7 ∨
          n mod 10 = 8 ∨ n mod 10 = 9) as Hc by lia.
  destruct Hc
    as [-> | [-> | [-> | [-> | [-> | [-> | [-> | [-> | [-> | ->]]]]]]]]];
    reflexivity.
Qed.

Lemma parseUint_format2 (n lo hi : Z) :
  0 ≤ n ≤ 99 → lo ≤ n ≤ hi →
  parseUint [digit (n / 10); digit n] lo hi = Some n.
Proof.
  intros Hn Hb. unfold parseUint. cbn [foldl]. rewrite !is_nat_digit. cbn.
  rewrite !Z2Nat.id by (apply Z.mod_pos_bound; lia).
  replace ((0 * 10 + (n / 10) mod 10) * 10 + n mod 10) with n
    by (Z.div_mod_to_equations; lia).
  by rewrite bool_decide_eq_true_2.
Qed.

Lemma parseUint_format4 (n lo hi : Z) :
  0 ≤ n ≤ 9999 → lo ≤ n ≤ hi →
  parseUint [digit (n / 1000); digit (n / 100); digit (n / 10); digit n] lo hi
  = Some n.
Proof.
  intros Hn Hb. unfold parseUint. cbn [foldl]. rewrite !is_nat_digit. cbn.
  rewrite !Z2Nat.id by (apply Z.mod_pos_bound; lia).
  replace ((((0 * 10 + (n / 1000) mod 10) * 10 + (n / 100) mod 10) * 10 +
            (n / 10) mod 10) * 10 + n mod 10) with n
    by (Z.div_mod_to_equations; lia).
  by rewrite bool_decide_eq_true_2.
Qed.

Lemma daysIn_le (m y : Z) : daysIn m y ≤ 31.
Proof. unfold daysIn. repeat case_match; lia. Qed.

(** A stamp written by [Format] is read back by [Parse] as the same time. *)
Lemma Parse_Format (t : CivilTime) :
  valid t →
  time_Parse (GoLib := lib) time_RFC3339
    (time_Format (GoLib := lib) time_RFC3339 (time_UTC (GoLib := lib) t)) =
  Some t.
Proof.
  intros (Hy & Hm & Hd & Hh & Hn & Hs). destruct t as [y m d h n s].
  cbn in Hy, Hm, Hd, Hh, Hn, Hs. pose proof (daysIn_le m y).
  cbn [time_Parse time_Format time_UTC lib id].
  unfold Parse, Format, stamp, format4, format2.
  rewrite !(bool_decide_eq_true_2 (time_RFC3339 = time_RFC3339)) by done.
  cbn -[parseUint digit daysIn Z.div].
  rewrite parseUint_format4 by lia. cbn -[parseUint digit daysIn Z.div].
  rewrite (parseUint_format2 m) by lia. cbn -[parseUint digit daysIn Z.div].
  rewrite (parseUint_format2 d) by lia. cbn -[parseUint digit daysIn Z.div].
  rewrite (parseUint_format2 h) by lia. cbn -[parseUint digit daysIn Z.div].
  rewrite (parseUint_format2 n) by lia. cbn -[parseUint digit daysIn Z.div].
  by rewrite (parseUint_format2 s) by lia.
Qed.

(** JSON encoding leaves ASCII text as it is. *)
Lemma jsonString_ascii (s : string) :
  Forall (λ c, (N_of_ascii c < 128)%N) (String.list_ascii_of_string s) →
  json_String (GoLib := lib) s = s.
Proof.
  cbn [json_String lib]. unfold jsonString.
  induction s as [|c s IH]; [done|]. cbn [String.list_ascii_of_string].
  intros [Hc Hs]%Forall_cons. cbn [coerce runeLen].
  apply N.ltb_lt in Hc. rewrite Hc. by rewrite IH.
Qed.

End reference.

(** * The properties on sample data *)

Section samples.
Import k8s.


Lemma BookApp_held_by_other_conflict_sample :
  let result :=
    BookApp (H := RefLib.lib) Sample.at10 "argocd" "my-app" "bob" Sample.byAlice
  in
  result.2 = Some "conflict: application already booked by alice" ∧
  issued Sample.byAlice result.1 = [mkAction VerbGet "argocd" "my-app"] ∧
  lock_state result.1 "argocd" "my-app" =
    Some (Held "alice" "2026-01-15T10:00:00Z").
Proof.
  pose proof (BookApp_held_by_other_conflict (H := RefLib.lib)
    Sample.at10 "argocd" "my-app" Sample.byAlice "alice" "bob"
    "2026-01-15T10:00:00Z") as Hconflict.
  destruct Hconflict as (Herr & _ & Hissued & _ & Hstate).
  - reflexivity.
  - discriminate.
  - exact (conj Herr (conj Hissued Hstate)).
Defined.

Lemma BookApp_same_holder_idempotent_sample :
  let result :=
    BookApp (H := RefLib.lib) Sample.at10 "argocd" "my-app" "alice"
      Sample.byAlice in
  result.2 = None ∧
  lock_state result.1 "argocd" "my-app" =
    Some (Held "alice" "2026-01-15T10:00:00Z").
Proof.
  apply (BookApp_same_holder_idempotent (H := RefLib.lib)
    Sample.at10 "argocd" "my-app" Sample.byAlice "alice"
    "2026-01-15T10:00:00Z").
  reflexivity.
Defined.

Lemma BookApp_same_holder_no_patch_sample :
  let result :=
    BookApp (H := RefLib.lib) Sample.at10 "argocd" "my-app" "alice"
      Sample.byAlice in
  issued Sample.byAlice result.1 = [mkAction VerbGet "argocd" "my-app"] ∧
  objects result.1 = objects Sample.byAlice.
Proof.
  pose proof (BookApp_same_holder_no_patch (H := RefLib.lib)
    Sample.at10 "argocd" "my-app" Sample.byAlice "alice"
    "2026-01-15T10:00:00Z") as Hsame.
  destruct Hsame as (Hissued & Hobjects & _).
  - reflexivity.
  - exact (conj Hissued Hobjects).
Defined.

Lemma UnbookApp_held_sample :
  (UnbookApp (H := RefLib.lib) "argocd" "my-app" "alice" false
     Sample.byAlice).2 = None ∧
  lock_state
    (UnbookApp (H := RefLib.lib) "argocd" "my-app" "bob" true
       Sample.byAlice).1 "argocd" "my-app" = Some Unlocked ∧
  (UnbookApp (H := RefLib.lib) "argocd" "my-app" "bob" false
     Sample.byAlice).2 =
    Some "forbidden: application is booked by alice, only they or an admin can unbook".
Proof.
  assert (lock_state Sample.byAlice "argocd" "my-app" =
          Some (Held "alice" "2026-01-15T10:00:00Z")) as Hstate
    by reflexivity.
  split_and!.
  - apply (UnbookApp_held (H := RefLib.lib) "argocd" "my-app" Sample.byAlice
             "alice" "alice" "2026-01-15T10:00:00Z" false Hstate).
    left. reflexivity.
  - apply (UnbookApp_held (H := RefLib.lib) "argocd" "my-app" Sample.byAlice
             "alice" "bob" "2026-01-15T10:00:00Z" true Hstate).
    right. reflexivity.
  - apply (UnbookApp_held (H := RefLib.lib) "argocd" "my-app" Sample.byAlice
             "alice" "bob" "2026-01-15T10:00:00Z" false Hstate).
    split; [discriminate|reflexivity].
Defined.

Lemma UnbookApp_unlocked_noop_sample :
  let result :=
    UnbookApp (H := RefLib.lib) "argocd" "my-app" "bob" false Sample.free in
  result.2 = None ∧
  issued Sample.free result.1 = [mkAction VerbGet "argocd" "my-app"] ∧
  objects result.1 = objects Sample.free ∧
  lock_state result.1 "argocd" "my-app" = Some Unlocked.
Proof.
  apply (UnbookApp_unlocked_noop (H := RefLib.lib)
    "argocd" "my-app" "bob" Sample.free false).
  reflexivity.
Defined.

Lemma partially_populated_is_held_sample :
  (BookApp (H := RefLib.lib) Sample.at10 "argocd" "my-app" "bob"
     Sample.partial).2 =
    Some "conflict: application already booked by alice" ∧
  (UnbookApp (H := RefLib.lib) "argocd" "my-app" "bob" false
     Sample.partial).2 =
    Some "forbidden: application is booked by alice, only they or an admin can unbook".
Proof.
  pose proof (partially_populated_is_held (H := RefLib.lib)
    Sample.at10 Sample.partial "argocd" "my-app" "alice" "bob") as Hheld.
  destruct Hheld as (Hconflict & _ & Hforbidden & _).
  - exists {[ AnnotationBookedBy := "alice" ]}.
    split; [reflexivity|]. split; [reflexivity|]. left. reflexivity.
  - discriminate.
  - discriminate.
  - exact (conj Hconflict Hforbidden).
Defined.

(** The scenario of the spec: acquire by alice, query, acquire by bob,
    release by bob without and with privilege, query. *)
Example booking_scenario :
  let book := BookApp (H := RefLib.lib) Sample.at10 "argocd" "my-app" in
  let unbook := UnbookApp (H := RefLib.lib) "argocd" "my-app" in
  let query := GetBookingStatus (H := RefLib.lib) "argocd" "my-app" in
  let c1 := (book "alice" Sample.free).1 in
  let c2 := (query c1).1 in
  let c3 := (book "bob" c2).1 in
  let c4 := (unbook "bob" false c3).1 in
  let c5 := (unbook "bob" true c4).1 in
  (book "alice" Sample.free).2 = None ∧
  (query c1).2 = ("alice", Sample.at10, None) ∧
  (book "bob" c2).2 = Some "conflict: application already booked by alice" ∧
  (unbook "bob" false c3).2 =
    Some "forbidden: application is booked by alice, only they or an admin can unbook" ∧
  (unbook "bob" true c4).2 = None ∧
  (query c5).2 = ("", RefLib.zero, None).
Proof. repeat split; reflexivity. Qed.

(** The listing test of the package: of three Applications two are booked. *)
Example ListBookings_three :
  (ListBookings "argocd" Sample.three).2.2 = None ∧
  length (slice_items (ListBookings "argocd" Sample.three).2.1) = 2.
Proof. split; vm_compute; reflexivity. Qed.

(** An acquire with the empty caller identity on an Unlocked resource
    returns at the same-user check and writes nothing; the HTTP layer never
    passes the empty identity on. *)
Example BookApp_empty_username :
  let result :=
    BookApp (H := RefLib.lib) Sample.at10 "argocd" "my-app" "" Sample.free in
  result.2 = None ∧ objects result.1 = objects Sample.free.
Proof. split; reflexivity. Qed.

(** The handler tests of the package: a privileged caller releases alice's
    booking; a request without the identity header, and a booking request
    without the caller header, are answered 400. *)
Example Unbook_by_admin :
  handler.Code
    (handler.response
       (handler.Unbook (H := RefLib.lib)
          (handler.NewClientFromDynamic (H := RefLib.lib) Sample.at10)
          (Sample.request [("Argocd-Application-Name", "argocd:my-app");
                           ("Argocd-Username", "bob");
                           ("Argocd-User-Groups", "developers, admin")])
          Sample.byAlice)) = 200%Z.
Proof. reflexivity. Qed.

Example Status_missing_header :
  handler.Code
    (handler.response
       (handler.Status (H := RefLib.lib)
          (handler.NewClientFromDynamic (H := RefLib.lib) Sample.at10)
          (Sample.request []) Sample.free)) = 400%Z.
Proof. reflexivity. Qed.

Example Book_missing_username :
  let served :=
    handler.Book (H := RefLib.lib)
      (handler.NewClientFromDynamic (H := RefLib.lib) Sample.at10)
      (Sample.request [("Argocd-Application-Name", "argocd:my-app")])
      Sample.free in
  handler.Code (handler.response served) = 400%Z ∧
  handler.calls served = [] ∧
  actions (handler.after served) = [].
Proof. repeat split; reflexivity. Qed.

(** A caller identity that is not valid UTF-8 (here the one byte 255) is
    stored as U+FFFD by the JSON encoding of the patch: the acquire succeeds,
    but the holder is not the caller, whose next acquire is a conflict and
    whose own release is refused. *)
Example BookApp_invalid_utf8 :
  let caller := String "255" EmptyString in
  let acquired :=
    BookApp (H := RefLib.lib) Sample.at10 "argocd" "my-app" caller
      Sample.free in
  acquired.2 = None ∧
  lock_state acquired.1 "argocd" "my-app" =
    Some (Held RefLib.replacement "2026-01-15T10:00:00Z") ∧
  Conflict
    (BookApp (H := RefLib.lib) Sample.at10 "argocd" "my-app" caller
       acquired.1).2 ∧
  Forbidden
    (UnbookApp (H := RefLib.lib) "argocd" "my-app" caller false
       acquired.1).2.
Proof.
  split_and!; [reflexivity|reflexivity| |]; (eexists; split; reflexivity).
Qed.

Lemma List_empty_is_array_sample :
  handler.Body
    (handler.response
       (handler.List (H := RefLib.lib)
          (handler.NewClientFromDynamic (H := RefLib.lib) Sample.at10)
          (Sample.request []) Sample.free)) =
  handler.JSONBody (handler.JArray []).
Proof.
  refine (proj1 (proj2 (proj2
    (List_empty_is_array (H := RefLib.lib)
       (handler.NewClientFromDynamic (H := RefLib.lib) Sample.at10) (Sample.request []) Sample.free _ None _ _)))).
  - reflexivity.
  - reflexivity.
Defined.

End samples.

(** * Further properties of the coordinator *)

Section coordinator_reads.
Context `{GoLib}.
Import k8s.

Implicit Types (c : Cluster) (now : Time).
Implicit Types (namespace appName username : string).

(** X1. A query has no side effect on the store: whether or not the resource
    exists, the objects are as before and the one action is the read. *)
Theorem GetBookingStatus_read_only namespace appName c :
  let result := GetBookingStatus namespace appName c in
  objects result.1 = objects c ∧
  issued c result.1 = [mkAction VerbGet namespace appName].
Proof.
  intros result. subst result.
  destruct (objects c !! (namespace, appName)) as [anns|] eqn:Hobj.
  - rewrite (GetBookingStatus_found _ _ _ _ Hobj). cbn [fst].
    by rewrite issued_record.
  - rewrite (GetBookingStatus_missing _ _ _ Hobj). cbn [fst].
    by rewrite issued_record.
Qed.

(** X2. A query reports the lock state: the empty holder and the zero time for an
    Unlocked resource, and for a Held one the holder with the time its
    acquired-at field parses to, the zero time when it does not parse. *)
Theorem GetBookingStatus_reports namespace appName c (s : LockState) :
  lock_state c namespace appName = Some s →
  (GetBookingStatus namespace appName c).2 =
    match s with
    | Unlocked => ("", time_Zero, None)
    | Held holder acquiredAt =>
        (holder,
         match time_Parse time_RFC3339 acquiredAt with
         | Some t => t
         | None => time_Zero
         end, None)
    end.
Proof.
  intros (anns & Hobj & <-)%lock_state_Some.
  rewrite (GetBookingStatus_found _ _ _ _ Hobj). cbn [snd].
  by destruct (lock_of anns).
Qed.

(** X3. On a resource that does not exist the query fails with the wrapped store
    error, and acquire and release fail with that same error after the read
    alone, leaving the store as it was. *)
Theorem missing_resource_errors now namespace appName username c
    (isAdmin : bool) :
  objects c !! (namespace, appName) = None →
  let e := Some ("failed to get application " +:+ namespace +:+ "/" +:+
                 appName +:+ ": " +:+ notFound appName) in
  let booked := BookApp now namespace appName username c in
  let unbooked := UnbookApp namespace appName username isAdmin c in
  (GetBookingStatus namespace appName c).2 = ("", time_Zero, e) ∧
  booked.2 = e ∧ unbooked.2 = e ∧
  objects booked.1 = objects c ∧ objects unbooked.1 = objects c ∧
  issued c booked.1 = [mkAction VerbGet namespace appName] ∧
  issued c unbooked.1 = [mkAction VerbGet namespace appName].
Proof.
  intros Hobj e booked unbooked. subst e booked unbooked.
  unfold BookApp, UnbookApp.
  rewrite (GetBookingStatus_missing _ _ _ Hobj). cbn [fst snd].
  by rewrite issued_record.
Qed.

End coordinator_reads.

Section coordinator_writes.
Context `{GoLib}.
Import k8s.

Implicit Types (c : Cluster) (now : Time).
Implicit Types (namespace appName username : string).

Lemma BookApp_missing now namespace appName username c :
  objects c !! (namespace, appName) = None →
  BookApp now namespace appName username c =
    (record (mkAction VerbGet namespace appName) c,
     Some ("failed to get application " +:+ namespace +:+ "/" +:+ appName +:+
           ": " +:+ notFound appName)).
Proof.
  intros Hobj. unfold BookApp. by rewrite (GetBookingStatus_missing _ _ _ Hobj).
Qed.

Lemma UnbookApp_missing namespace appName username (isAdmin : bool) c :
  objects c !! (namespace, appName) = None →
  UnbookApp namespace appName username isAdmin c =
    (record (mkAction VerbGet namespace appName) c,
     Some ("failed to get application " +:+ namespace +:+ "/" +:+ appName +:+
           ": " +:+ notFound appName)).
Proof.
  intros Hobj. unfold UnbookApp.
  by rewrite (GetBookingStatus_missing _ _ _ Hobj).
Qed.

Lemma issued_read_write c namespace appName objs :
  issued c {| objects := objs;
              actions := actions c ++ [mkAction VerbGet namespace appName;
                                       mkAction VerbPatch namespace appName] |}
  = [mkAction VerbGet namespace appName; mkAction VerbPatch namespace appName].
Proof. unfold issued. cbn. apply drop_app_length. Qed.

Lemma patch_not_in_read namespace appName :
  mkAction VerbPatch namespace appName ∉ [mkAction VerbGet namespace appName].
Proof. by intros [=]%list_elem_of_singleton. Qed.

Lemma patch_in_read_write namespace appName :
  mkAction VerbPatch namespace appName ∈
    [mkAction VerbGet namespace appName; mkAction VerbPatch namespace appName].
Proof. apply elem_of_cons. right. by apply list_elem_of_singleton. Qed.

(** X4. An acquire reads once and patches at most once, the same resource. It
    patches exactly when the resource exists, is Unlocked and the caller is
    not the empty string; in every other case the objects are as before. *)
Theorem BookApp_patches_iff now namespace appName username c :
  let result := BookApp now namespace appName username c in
  (issued c result.1 = [mkAction VerbGet namespace appName] ∨
   issued c result.1 = [mkAction VerbGet namespace appName;
                        mkAction VerbPatch namespace appName]) ∧
  (mkAction VerbPatch namespace appName ∈ issued c result.1 ↔
   lock_state c namespace appName = Some Unlocked ∧ username ≠ "") ∧
  (mkAction VerbPatch namespace appName ∉ issued c result.1 →
   objects result.1 = objects c).
Proof.
  intros result. subst result. unfold lock_state.
  pose proof (patch_not_in_read namespace appName) as Hnot.
  pose proof (patch_in_read_write namespace appName) as Hin.
  destruct (objects c !! (namespace, appName)) as [anns|] eqn:Hobj; cbn.
  2: { rewrite (BookApp_missing _ _ _ _ _ Hobj). cbn [fst].
       rewrite issued_record. split_and!; [by left| |done].
       split; [done|]. by intros [? _]. }
  destruct (lock_of anns) as [|holder acquiredAt] eqn:Hlock.
  - destruct (decide (username = "")) as [->|Huser].
    + rewrite (BookApp_same now _ _ "" _ _ Hobj) by by rewrite Hlock.
      cbn [fst]. rewrite issued_record. split_and!; [by left| |done].
      split; [done|]. by intros [_ ?].
    + rewrite (BookApp_free _ _ _ _ _ _ Hobj Hlock Huser). cbn [fst].
      rewrite issued_read_write. split_and!; [by right|done|done].
  - destruct (decide (holder = username)) as [->|Hne].
    + rewrite (BookApp_same now _ _ username _ _ Hobj) by by rewrite Hlock.
      cbn [fst]. rewrite issued_record. split_and!; [by left| |done].
      split; [done|]. by intros [[=] _].
    + rewrite (BookApp_other _ _ _ _ _ _ _ _ Hobj Hlock Hne). cbn [fst].
      rewrite issued_record. split_and!; [by left| |done].
      split; [done|]. by intros [[=] _].
Qed.

(** X5. A release reads once and patches at most once, the same resource. It
    patches exactly when the resource is Held and the caller is the holder
    or privileged; in every other case the objects are as before. *)
Theorem UnbookApp_patches_iff namespace appName username (isAdmin : bool) c :
  let result := UnbookApp namespace appName username isAdmin c in
  (issued c result.1 = [mkAction VerbGet namespace appName] ∨
   issued c result.1 = [mkAction VerbGet namespace appName;
                        mkAction VerbPatch namespace appName]) ∧
  (mkAction VerbPatch namespace appName ∈ issued c result.1 ↔
   ∃ holder acquiredAt,
     lock_state c namespace appName = Some (Held holder acquiredAt) ∧
     (holder = username ∨ isAdmin = true)) ∧
  (mkAction VerbPatch namespace appName ∉ issued c result.1 →
   objects result.1 = objects c).
Proof.
  intros result. subst result. unfold lock_state.
  pose proof (patch_not_in_read namespace appName) as Hnot.
  pose proof (patch_in_read_write namespace appName) as Hin.
  destruct (objects c !! (namespace, appName)) as [anns|] eqn:Hobj; cbn.
  2: { rewrite (UnbookApp_missing _ _ _ _ _ Hobj). cbn [fst].
       rewrite issued_record. split_and!; [by left| |done].
       split; [done|]. by intros (? & ? & ? & _). }
  destruct (lock_of anns) as [|holder acquiredAt] eqn:Hlock.
  - rewrite (UnbookApp_free _ _ _ _ _ _ Hobj Hlock). cbn [fst].
    rewrite issued_record. split_and!; [by left| |done].
    split; [done|]. by intros (? & ? & [=] & _).
  - destruct (decide (holder = username ∨ isAdmin = true)) as [Hok|Hno].
    + rewrite (UnbookApp_allowed _ _ _ _ _ _ _ _ Hobj Hlock Hok). cbn [fst].
      rewrite issued_read_write. split_and!; [by right| |done].
      split; [|done]. intros _. by exists holder, acquiredAt.
    + assert (holder ≠ username ∧ isAdmin = false) as [Hne ->].
      { destruct isAdmin; [destruct Hno; by right|].
        split; [|done]. intros ->. destruct Hno. by left. }
      rewrite (UnbookApp_refused _ _ _ _ _ _ _ Hobj Hlock Hne). cbn [fst].
      rewrite issued_record. split_and!; [by left| |done].
      split; [done|]. intros (h & ts & [= <- <-] & [?|?]); done.
Qed.

End coordinator_writes.

Section coordinator_frame.
Context `{GoLib}.
Import k8s.

Implicit Types (c : Cluster) (now : Time).
Implicit Types (namespace appName username : string).
Implicit Types (objs : gmap (string * string) (option (gmap string string))).

Lemma booking_patch_pair (by_ at_ : option string) :
  booking_patch {[ AnnotationBookedBy := by_; AnnotationBookedAt := at_ ]}.
Proof.
  intros k Hby Hat. rewrite lookup_insert_ne by done.
  by rewrite lookup_singleton_ne.
Qed.

(** Patching one object keeps the set of objects, every other object, and
    every annotation of the object that the patch does not mention. *)
Lemma patched_frame objs (key : string * string) anns patch :
  objs !! key = Some anns →
  booking_patch patch →
  dom (<[key := apply_patch patch anns]> objs) = dom objs ∧
  (∀ key', key' ≠ key →
     <[key := apply_patch patch anns]> objs !! key' = objs !! key') ∧
  ∀ k, k ≠ AnnotationBookedBy → k ≠ AnnotationBookedAt →
       default ∅ (apply_patch patch anns) !! k = default ∅ anns !! k.
Proof.
  intros Hobj Hpatch. split_and!.
  - apply dom_insert_lookup_L. by rewrite Hobj.
  - intros key' Hne. by rewrite lookup_insert_ne.
  - intros k Hby Hat. cbn. rewrite lookup_merge, (Hpatch k Hby Hat).
    by destruct (default ∅ anns !! k).
Qed.

(** The objects after an acquire: as before, or the resource patched with
    the caller and the stamp. *)
Lemma BookApp_objects now namespace appName username c :
  objects (BookApp now namespace appName username c).1 = objects c ∨
  ∃ anns, objects c !! (namespace, appName) = Some anns ∧
    objects (BookApp now namespace appName username c).1 =
      <[(namespace, appName) :=
          apply_patch
            {[ AnnotationBookedBy := Some (json_String username);
               AnnotationBookedAt :=
                 Some (json_String
                       (time_Format time_RFC3339 (time_UTC now))) ]} anns]>
        (objects c).
Proof.
  destruct (objects c !! (namespace, appName)) as [anns|] eqn:Hobj.
  2: { left. by rewrite (BookApp_missing _ _ _ _ _ Hobj). }
  destruct (lock_of anns) as [|holder acquiredAt] eqn:Hlock.
  - destruct (decide (username = "")) as [->|Huser].
    + left. by rewrite (BookApp_same now _ _ "" _ _ Hobj) by by rewrite Hlock.
    + right. exists anns. split; [done|].
      by rewrite (BookApp_free _ _ _ _ _ _ Hobj Hlock Huser).
  - destruct (decide (holder = username)) as [->|Hne].
    + left.
      by rewrite (BookApp_same now _ _ username _ _ Hobj) by by rewrite Hlock.
    + left. by rewrite (BookApp_other _ _ _ _ _ _ _ _ Hobj Hlock Hne).
Qed.

(** The objects after a release: as before, or the resource patched with
    both annotations removed. *)
Lemma UnbookApp_objects namespace appName username (isAdmin : bool) c :
  objects (UnbookApp namespace appName username isAdmin c).1 = objects c ∨
  ∃ anns, objects c !! (namespace, appName) = Some anns ∧
    objects (UnbookApp namespace appName username isAdmin c).1 =
      <[(namespace, appName) :=
          apply_patch
            {[ AnnotationBookedBy := None; AnnotationBookedAt := None ]}
            anns]> (objects c).
Proof.
  destruct (objects c !! (namespace, appName)) as [anns|] eqn:Hobj.
  2: { left. by rewrite (UnbookApp_missing _ _ _ _ _ Hobj). }
  destruct (lock_of anns) as [|holder acquiredAt] eqn:Hlock.
  - left. by rewrite (UnbookApp_free _ _ _ _ _ _ Hobj Hlock).
  - destruct (decide (holder = username ∨ isAdmin = true)) as [Hok|Hno].
    + right. exists anns. split; [done|].
      by rewrite (UnbookApp_allowed _ _ _ _ _ _ _ _ Hobj Hlock Hok).
    + assert (holder ≠ username ∧ isAdmin = false) as [Hne ->].
      { destruct isAdmin; [destruct Hno; by right|].
        split; [|done]. intros ->. destruct Hno. by left. }
      left. by rewrite (UnbookApp_refused _ _ _ _ _ _ _ Hobj Hlock Hne).
Qed.

Lemma frame_of_objects objs objs' (key : string * string) patch :
  booking_patch patch →
  (objs' = objs ∨
   ∃ anns, objs !! key = Some anns ∧
           objs' = <[key := apply_patch patch anns]> objs) →
  dom objs' = dom objs ∧
  (∀ key', key' ≠ key → objs' !! key' = objs !! key') ∧
  ∀ anns anns' k,
    objs !! key = Some anns → objs' !! key = Some anns' →
    k ≠ AnnotationBookedBy → k ≠ AnnotationBookedAt →
    default ∅ anns' !! k = default ∅ anns !! k.
Proof.
  intros Hpatch [->|(anns0 & Hobj & ->)].
  - split_and!; [done|done|]. intros anns anns' k Hobj Hobj' _ _.
    rewrite Hobj in Hobj'. by injection Hobj' as <-.
  - destruct (patched_frame _ _ _ _ Hobj Hpatch) as (Hdom & Hother & Hanns).
    split_and!; [done|done|]. intros anns anns' k Hobj0 Hobj' Hby Hat.
    rewrite Hobj in Hobj0. injection Hobj0 as <-.
    rewrite lookup_insert_eq in Hobj'. injection Hobj' as <-. by apply Hanns.
Qed.

(** X6. Whatever its outcome, an acquire creates and deletes no resource, leaves
    every other resource untouched, and on the resource itself leaves every
    annotation other than the two booking annotations as it was. *)
Theorem BookApp_frame now namespace appName username c :
  let result := BookApp now namespace appName username c in
  dom (objects result.1) = dom (objects c) ∧
  (∀ key, key ≠ (namespace, appName) →
     objects result.1 !! key = objects c !! key) ∧
  ∀ anns anns' k,
    objects c !! (namespace, appName) = Some anns →
    objects result.1 !! (namespace, appName) = Some anns' →
    k ≠ AnnotationBookedBy → k ≠ AnnotationBookedAt →
    default ∅ anns' !! k = default ∅ anns !! k.
Proof.
  intros result. subst result.
  exact (frame_of_objects _ _ _ _ (booking_patch_pair _ _)
           (BookApp_objects now namespace appName username c)).
Qed.

(** X7. Whatever its outcome, a release creates and deletes no resource, leaves
    every other resource untouched, and on the resource itself leaves every
    annotation other than the two booking annotations as it was. *)
Theorem UnbookApp_frame namespace appName username (isAdmin : bool) c :
  let result := UnbookApp namespace appName username isAdmin c in
  dom (objects result.1) = dom (objects c) ∧
  (∀ key, key ≠ (namespace, appName) →
     objects result.1 !! key = objects c !! key) ∧
  ∀ anns anns' k,
    objects c !! (namespace, appName) = Some anns →
    objects result.1 !! (namespace, appName) = Some anns' →
    k ≠ AnnotationBookedBy → k ≠ AnnotationBookedAt →
    default ∅ anns' !! k = default ∅ anns !! k.
Proof.
  intros result. subst result.
  exact (frame_of_objects _ _ _ _ (booking_patch_pair _ _)
           (UnbookApp_objects namespace appName username isAdmin c)).
Qed.

End coordinator_frame.

Section coordinator_sequences.
Context `{GoLib}.
Import k8s.

Implicit Types (c : Cluster) (now : Time).
Implicit Types (namespace appName username : string).

Lemma lookup_booked anns username (stamp k : string) :
  default ∅
    (apply_patch {[ AnnotationBookedBy := Some username;
                    AnnotationBookedAt := Some stamp ]} anns) !! k =
  if bool_decide (k = AnnotationBookedBy) then Some username
  else if bool_decide (k = AnnotationBookedAt) then Some stamp
  else default ∅ anns !! k.
Proof.
  destruct (apply_patch _ anns) as [m|] eqn:Hpatch; [|done]. cbn.
  rewrite (lookup_apply_patch _ _ _ _ Hpatch).
  case_bool_decide as Hby; [subst k|case_bool_decide as Hat; [subst k|]].
  - by rewrite lookup_insert_eq.
  - rewrite lookup_insert_ne by done. by rewrite lookup_singleton_eq.
  - rewrite lookup_insert_ne by done. by rewrite lookup_singleton_ne.
Qed.

Lemma lookup_cleared anns (k : string) :
  default ∅
    (apply_patch {[ AnnotationBookedBy := None; AnnotationBookedAt := None ]}
       anns) !! k =
  if bool_decide (k = AnnotationBookedBy ∨ k = AnnotationBookedAt) then None
  else default ∅ anns !! k.
Proof.
  destruct (apply_patch _ anns) as [m|] eqn:Hpatch; [|done]. cbn.
  rewrite (lookup_apply_patch _ _ _ _ Hpatch). case_bool_decide as Hk.
  - destruct Hk as [->| ->].
    + by rewrite lookup_insert_eq.
    + rewrite lookup_insert_ne by done. by rewrite lookup_singleton_eq.
  - rewrite lookup_insert_ne by (intros <-; apply Hk; by left).
    by rewrite lookup_singleton_ne by (intros <-; apply Hk; by right).
Qed.

Lemma lock_of_booked anns username (stamp : string) :
  username ≠ "" →
  lock_of (apply_patch {[ AnnotationBookedBy := Some username;
                          AnnotationBookedAt := Some stamp ]} anns) =
  Held username stamp.
Proof.
  intros Huser.
  pose proof (lookup_booked anns username stamp AnnotationBookedBy) as Hby.
  pose proof (lookup_booked anns username stamp AnnotationBookedAt) as Hat.
  rewrite bool_decide_eq_true_2 in Hby by done.
  rewrite bool_decide_eq_false_2, bool_decide_eq_true_2 in Hat by done.
  destruct (apply_patch _ anns) as [m|] eqn:Hpatch; [|done].
  cbn in Hby, Hat. cbn. rewrite Hby.
  rewrite bool_decide_eq_false_2 by done.
  unfold map_index. by rewrite Hat.
Qed.

Lemma lock_of_cleared anns :
  lock_of (apply_patch
             {[ AnnotationBookedBy := None; AnnotationBookedAt := None ]}
             anns) = Unlocked.
Proof.
  pose proof (lookup_cleared anns AnnotationBookedBy) as Hby.
  rewrite bool_decide_eq_true_2 in Hby by by left.
  destruct (apply_patch _ anns) as [m|] eqn:Hpatch; [|done].
  cbn in Hby. cbn. by rewrite Hby.
Qed.

(** X10. Acquire followed by release by the same caller, whose identity is
    non-empty text that JSON encoding leaves as it is, brings an Unlocked
    resource back to Unlocked: the release succeeds, both booking annotations
    are gone, every other annotation and every other resource is as it was
    before the acquire. *)
Theorem acquire_release_round_trip now namespace appName username c
    (isAdmin : bool) :
  lock_state c namespace appName = Some Unlocked →
  username ≠ "" →
  json_String username = username →
  let acquired := BookApp now namespace appName username c in
  let released := UnbookApp namespace appName username isAdmin acquired.1 in
  acquired.2 = None ∧ released.2 = None ∧
  lock_state released.1 namespace appName = Some Unlocked ∧
  (∀ key, key ≠ (namespace, appName) →
     objects released.1 !! key = objects c !! key) ∧
  ∀ anns anns' k,
    objects c !! (namespace, appName) = Some anns →
    objects released.1 !! (namespace, appName) = Some anns' →
    default ∅ anns' !! k =
      if bool_decide (k = AnnotationBookedBy ∨ k = AnnotationBookedAt)
      then None else default ∅ anns !! k.
Proof.
  intros (anns & Hobj & Hlock)%lock_state_Some Huser Hjson acquired released.
  subst released acquired.
  rewrite (BookApp_free _ _ _ _ _ _ Hobj Hlock Huser), Hjson. cbn [fst snd].
  set (stamp := json_String (time_Format time_RFC3339 (time_UTC now))).
  erewrite UnbookApp_allowed; cycle 1.
  { apply lookup_insert_eq. }
  { by apply lock_of_booked. }
  { by left. }
  cbn [fst snd objects]. split_and!; [done|done| | |].
  - apply lock_state_Some. eexists. split; [apply lookup_insert_eq|].
    apply lock_of_cleared.
  - intros key Hkey. by rewrite !lookup_insert_ne.
  - intros anns0 anns' k Hobj0 Hobj'.
    rewrite Hobj in Hobj0. injection Hobj0 as <-.
    rewrite lookup_insert_eq in Hobj'. injection Hobj' as <-.
    rewrite lookup_cleared. case_bool_decide as Hk; [done|].
    etrans; [exact (lookup_booked anns username stamp k)|].
    rewrite bool_decide_eq_false_2 by (intros ->; apply Hk; by left).
    by rewrite bool_decide_eq_false_2 by (intros ->; apply Hk; by right).
Qed.

(** X11. After the holder or a privileged caller has released a Held resource,
    any caller whose identity is non-empty text that JSON encoding leaves as
    it is acquires it. *)
Theorem release_then_acquire now namespace appName c
    (holder acquiredAt releaser successor : string) (isAdmin : bool) :
  lock_state c namespace appName = Some (Held holder acquiredAt) →
  releaser = holder ∨ isAdmin = true →
  successor ≠ "" →
  json_String successor = successor →
  let released := UnbookApp namespace appName releaser isAdmin c in
  let acquired := BookApp now namespace appName successor released.1 in
  released.2 = None ∧ acquired.2 = None ∧
  lock_state acquired.1 namespace appName =
    Some (Held successor
            (json_String (time_Format time_RFC3339 (time_UTC now)))).
Proof.
  intros (anns & Hobj & Hlock)%lock_state_Some Hok Hsucc Hjson
    released acquired.
  subst acquired released.
  rewrite (UnbookApp_allowed _ _ releaser isAdmin _ _ _ _ Hobj Hlock)
    by (destruct Hok; auto).
  cbn [fst snd].
  erewrite BookApp_free; cycle 1.
  { apply lookup_insert_eq. }
  { apply lock_of_cleared. }
  { done. }
  rewrite Hjson. cbn [fst snd]. split_and!; [done|done|].
  apply lock_state_Some. eexists. split; [cbn; apply lookup_insert_eq|].
  by apply lock_of_booked.
Qed.

(** X12. A second acquire by the holder, at whatever later time, succeeds without
    a patch and the lock keeps the stamp of the first acquire. The caller
    identity is non-empty text that JSON encoding leaves as it is. *)
Theorem acquire_twice_keeps_first_stamp (first later : Time)
    namespace appName username c :
  lock_state c namespace appName = Some Unlocked →
  username ≠ "" →
  json_String username = username →
  let once := BookApp first namespace appName username c in
  let twice := BookApp later namespace appName username once.1 in
  twice.2 = None ∧
  objects twice.1 = objects once.1 ∧
  issued once.1 twice.1 = [mkAction VerbGet namespace appName] ∧
  lock_state twice.1 namespace appName =
    Some (Held username
            (json_String (time_Format time_RFC3339 (time_UTC first)))).
Proof.
  intros (anns & Hobj & Hlock)%lock_state_Some Huser Hjson once twice.
  subst twice once.
  rewrite (BookApp_free _ _ _ _ _ _ Hobj Hlock Huser), Hjson.
  cbn [fst snd].
  erewrite (BookApp_same later); cycle 1.
  { apply lookup_insert_eq. }
  { by rewrite lock_of_booked. }
  cbn [fst snd]. rewrite issued_record. split_and!; [done|done|done|].
  rewrite lock_state_record. apply lock_state_Some.
  eexists. split; [cbn; apply lookup_insert_eq|]. by apply lock_of_booked.
Qed.

End coordinator_sequences.

Section coordinator_listing.
Context `{GoLib}.
Import k8s.

Implicit Types (c : Cluster) (now : Time).
Implicit Types (namespace appName username : string).

Lemma ListBookings_items namespace c :
  slice_items (ListBookings namespace c).2.1 =
  omap extractBooking
    (itemOf <$> filter (λ kv, in_scope namespace kv.1)
                  (map_to_list (objects c))).
Proof. unfold ListBookings, dyn_List. cbn [fst snd]. by rewrite ListBookings_loop. Qed.

Lemma elem_of_ListBookings namespace c (b : Booking) :
  b ∈ slice_items (ListBookings namespace c).2.1 ↔
  in_scope namespace (keyOf b) ∧
  lock_state c (Namespace b) (AppName b) =
    Some (Held (BookedBy b) (BookedAt b)).
Proof.
  rewrite ListBookings_items, list_elem_of_omap. split.
  - intros (app & Happ & Hb).
    apply list_elem_of_fmap in Happ as ([[ns name] anns] & -> & Hkv).
    apply list_elem_of_filter in Hkv as [Hscope Hkv].
    apply elem_of_map_to_list in Hkv.
    apply extractBooking_Some in Hb as [Hkey Hlock]. cbn in *.
    rewrite Hkey. split; [done|].
    injection Hkey as -> ->. apply lock_state_Some. eauto.
  - intros [Hscope (anns & Hobj & Hlock)%lock_state_Some].
    exists (itemOf (keyOf b, anns)). split.
    + apply list_elem_of_fmap. eexists. split; [done|].
      apply list_elem_of_filter. split; [done|].
      by apply elem_of_map_to_list.
    + by apply extractBooking_Some.
Qed.

(** The loop of [ListBookings] leaves the slice [nil] exactly when it started
    [nil] and no item has a booking. *)
Lemma ListBookings_loop_nil (items : list Unstructured)
    (bookings : slice Booking) :
  foldl (λ bookings item,
           match extractBooking item with
           | Some b => slice_append bookings b
           | None => bookings
           end) bookings items = None ↔
  bookings = None ∧ omap extractBooking items = [].
Proof.
  revert bookings. induction items as [|item items IH]; intros bookings.
  - cbn. split; [done|]. by intros [? _].
  - cbn [foldl]. rewrite IH. cbn.
    destruct (extractBooking item) as [b|]; [|done].
    split; [by intros [[=] _]|by intros [_ [=]]].
Qed.

(** X15. A listing returns the [nil] slice, not an empty one, exactly when no
    resource of the scope is Held. *)
Theorem ListBookings_nil_iff namespace c :
  (ListBookings namespace c).2.1 = None ↔
  ∀ key holder acquiredAt,
    in_scope namespace key →
    lock_state c key.1 key.2 ≠ Some (Held holder acquiredAt).
Proof.
  assert ((ListBookings namespace c).2.1 = None ↔
          slice_items (ListBookings namespace c).2.1 = []) as ->.
  { rewrite ListBookings_items. unfold ListBookings, dyn_List. cbn [fst snd].
    rewrite ListBookings_loop_nil. split; [by intros [_ ?]|done]. }
  split.
  - intros Hnil [ns name] holder acquiredAt Hscope Hheld. cbn in Hheld.
    assert (mkBooking name ns holder acquiredAt ∈
              slice_items (ListBookings namespace c).2.1) as Hin
      by by apply elem_of_ListBookings.
    rewrite Hnil in Hin. by apply elem_of_nil in Hin.
  - intros Hnone.
    destruct (slice_items (ListBookings namespace c).2.1) as [|b l] eqn:Hl;
      [done|].
    assert (b ∈ slice_items (ListBookings namespace c).2.1) as Hin
      by (rewrite Hl; apply elem_of_cons; by left).
    apply elem_of_ListBookings in Hin as [Hscope Hheld].
    by destruct (Hnone (keyOf b) (BookedBy b) (BookedAt b) Hscope).
Qed.

(** X16. The two read paths agree: every listed record names a resource for which
    the query reports the record's holder and the time its timestamp parses
    to; and a resource of the scope for which the query reports a non-empty
    holder is listed with that holder. *)
Theorem ListBookings_agrees_with_GetBookingStatus namespace c :
  (∀ b, b ∈ slice_items (ListBookings namespace c).2.1 →
     (GetBookingStatus (Namespace b) (AppName b) c).2 =
       (BookedBy b,
        default time_Zero (time_Parse time_RFC3339 (BookedAt b)), None)) ∧
  (∀ ns appName holder (t : Time),
     in_scope namespace (ns, appName) →
     (GetBookingStatus ns appName c).2 = (holder, t, None) →
     holder ≠ "" →
     ∃ b, b ∈ slice_items (ListBookings namespace c).2.1 ∧
          keyOf b = (ns, appName) ∧ BookedBy b = holder).
Proof.
  split.
  - intros b [_ (anns & Hobj & Hlock)%lock_state_Some]%elem_of_ListBookings.
    by rewrite (GetBookingStatus_found _ _ _ _ Hobj), Hlock.
  - intros ns appName holder t Hscope Hquery Hholder.
    destruct (objects c !! (ns, appName)) as [anns|] eqn:Hobj.
    2: { by rewrite (GetBookingStatus_missing _ _ _ Hobj) in Hquery. }
    rewrite (GetBookingStatus_found _ _ _ _ Hobj) in Hquery. cbn in Hquery.
    destruct (lock_of anns) as [|h acquiredAt] eqn:Hlock.
    { injection Hquery as <- _. done. }
    injection Hquery as -> _.
    exists (mkBooking appName ns holder acquiredAt). split_and!; [|done|done].
    apply elem_of_ListBookings. split; [done|].
    apply lock_state_Some. eauto.
Qed.

Lemma BookApp_free_state now namespace appName username c :
  lock_state c namespace appName = Some Unlocked →
  username ≠ "" →
  json_String username = username →
  lock_state (BookApp now namespace appName username c).1 namespace appName =
    Some (Held username
            (json_String (time_Format time_RFC3339 (time_UTC now)))).
Proof.
  intros (anns & Hobj & Hlock)%lock_state_Some Huser Hjson.
  rewrite (BookApp_free _ _ _ _ _ _ Hobj Hlock Huser), Hjson. cbn [fst].
  apply lock_state_Some. eexists. split; [apply lookup_insert_eq|].
  by apply lock_of_booked.
Qed.

Lemma UnbookApp_allowed_state namespace appName username (isAdmin : bool) c
    (holder acquiredAt : string) :
  lock_state c namespace appName = Some (Held holder acquiredAt) →
  holder = username ∨ isAdmin = true →
  lock_state (UnbookApp namespace appName username isAdmin c).1
    namespace appName = Some Unlocked.
Proof.
  intros (anns & Hobj & Hlock)%lock_state_Some Hok.
  rewrite (UnbookApp_allowed _ _ _ _ _ _ _ _ Hobj Hlock Hok). cbn [fst].
  apply lock_state_Some. eexists. split; [apply lookup_insert_eq|].
  apply lock_of_cleared.
Qed.

(** X17. Listings follow the writes: a resource of the scope is not listed while
    Unlocked, is listed with the caller and the stamp once acquired, and is
    no longer listed once the holder has released it. The caller identity is
    non-empty text that JSON encoding leaves as it is. *)
Theorem ListBookings_follows_writes now (scope : string)
    namespace appName username c :
  lock_state c namespace appName = Some Unlocked →
  username ≠ "" →
  json_String username = username →
  in_scope scope (namespace, appName) →
  let acquired := (BookApp now namespace appName username c).1 in
  let released := (UnbookApp namespace appName username false acquired).1 in
  (∀ b, b ∈ slice_items (ListBookings scope c).2.1 →
        keyOf b ≠ (namespace, appName)) ∧
  mkBooking appName namespace username
    (json_String (time_Format time_RFC3339 (time_UTC now)))
    ∈ slice_items (ListBookings scope acquired).2.1 ∧
  (∀ b, b ∈ slice_items (ListBookings scope released).2.1 →
        keyOf b ≠ (namespace, appName)).
Proof.
  intros Hfree Huser Hjson Hscope acquired released.
  pose proof (BookApp_free_state now _ _ _ _ Hfree Huser Hjson) as Hheld.
  fold acquired in Hheld.
  pose proof (UnbookApp_allowed_state _ _ username false _ _ _ Hheld
                (or_introl eq_refl)) as Hreleased.
  fold released in Hreleased.
  split_and!.
  - intros b [_ Hb]%elem_of_ListBookings [= Hns Hname].
    rewrite Hns, Hname, Hfree in Hb. done.
  - by apply elem_of_ListBookings.
  - intros b [_ Hb]%elem_of_ListBookings [= Hns Hname].
    rewrite Hns, Hname, Hreleased in Hb. done.
Qed.

End coordinator_listing.

(** * Further properties of the HTTP layer *)

Section containment.
Local Arguments String.append : simpl nomatch.

Lemma prefix_app (sub s rest : string) :
  String.prefix sub s = true → String.prefix sub (s +:+ rest) = true.
Proof.
  revert sub. induction s as [|b s IH]; intros [|a sub]; cbn; try done.
  - intros _. by destruct rest.
  - destruct (ascii_dec a b); [apply IH|done].
Qed.

Lemma strings_Contains_app_r (s sub rest : string) :
  strings_Contains s sub = true → strings_Contains (s +:+ rest) sub = true.
Proof.
  induction s as [|a s IH].
  - cbn. rewrite orb_false_r. intros Hsub.
    destruct sub; [|done]. by destruct rest.
  - cbn [strings_Contains]. intros [Hp|Hc]%orb_true_iff.
    + apply orb_true_iff. left. by apply (prefix_app sub (String a s)).
    + cbn. apply orb_true_iff. right. by apply IH.
Qed.

Lemma strings_Contains_app_l (before s sub : string) :
  strings_Contains s sub = true → strings_Contains (before +:+ s) sub = true.
Proof.
  intros Hs. induction before as [|a before IH]; [done|].
  cbn. apply orb_true_iff. by right.
Qed.

(** A text contains whatever one of its parts contains. *)
Lemma strings_Contains_mid (before s rest sub : string) :
  strings_Contains s sub = true →
  strings_Contains (before +:+ s +:+ rest) sub = true.
Proof.
  intros Hs. by apply strings_Contains_app_l, strings_Contains_app_r.
Qed.

End containment.

Section http_outcomes.
Context `{GoLib} {S : Type} (client : handler.Client S).
Import handler.

Implicit Types (r : Request) (st : S).

(** X18. Each handler answers with JSON and with one of its own status codes:
    200, 400 or 500 for the status; 200, 400, 409 or 500 for booking; 200,
    400, 403 or 500 for unbooking; 200 or 500 for the list. *)
Theorem handlers_status_codes r st :
  (Code (response (Status client r st)) ∈ [200; 400; 500]%Z ∧
   ContentType (response (Status client r st)) = Some "application/json") ∧
  (Code (response (Book client r st)) ∈ [200; 400; 409; 500]%Z ∧
   ContentType (response (Book client r st)) = Some "application/json") ∧
  (Code (response (Unbook client r st)) ∈ [200; 400; 403; 500]%Z ∧
   ContentType (response (Unbook client r st)) = Some "application/json") ∧
  (Code (response (List client r st)) ∈ [200; 500]%Z ∧
   ContentType (response (List client r st)) = Some "application/json").
Proof.
  split_and!.
  - unfold Status. destruct (parseAppHeader r) as [[ns app] [|]]; cbn.
    + destruct (Client_GetBookingStatus client ns app st)
        as [st' [[bookedBy bookedAt] [e|]]]; cbn; set_solver.
    + set_solver.
  - unfold Status. destruct (parseAppHeader r) as [[ns app] [|]]; cbn; [|done].
    by destruct (Client_GetBookingStatus client ns app st)
      as [st' [[bookedBy bookedAt] [e|]]].
  - unfold Book. destruct (parseAppHeader r) as [[ns app] [|]]; cbn.
    + case_bool_decide; cbn; [set_solver|].
      destruct (Client_BookApp client ns app _ st) as [st' [e|]]; cbn.
      * destruct (strings_Contains e "conflict:"); cbn; set_solver.
      * set_solver.
    + set_solver.
  - unfold Book. destruct (parseAppHeader r) as [[ns app] [|]]; cbn; [|done].
    case_bool_decide; cbn; [done|].
    destruct (Client_BookApp client ns app _ st) as [st' [e|]]; cbn; [|done].
    by destruct (strings_Contains e "conflict:").
  - unfold Unbook. destruct (parseAppHeader r) as [[ns app] [|]]; cbn.
    + case_bool_decide; cbn; [set_solver|].
      destruct (Client_UnbookApp client ns app _ _ st) as [st' [e|]]; cbn.
      * destruct (strings_Contains e "forbidden:"); cbn; set_solver.
      * set_solver.
    + set_solver.
  - unfold Unbook. destruct (parseAppHeader r) as [[ns app] [|]]; cbn; [|done].
    case_bool_decide; cbn; [done|].
    destruct (Client_UnbookApp client ns app _ _ st) as [st' [e|]]; cbn;
      [|done].
    by destruct (strings_Contains e "forbidden:").
  - unfold List.
    destruct (Client_ListBookings client _ st) as [st' [bookings [e|]]]; cbn;
      set_solver.
  - unfold List.
    by destruct (Client_ListBookings client _ st) as [st' [bookings [e|]]].
Qed.

(** X19. A request with a well-formed identity (and, to book or unbook, a caller)
    makes exactly one call on the client, for the namespace and the name the
    identity header encodes and the caller the header names; a list request
    makes exactly one call, for the namespace of the query or for argocd
    when the query names none. The state afterwards is the one the client
    returned. *)
Theorem handlers_call_once r st (ns app : string) :
  parseAppHeader r = (ns, app, true) →
  let username := Get (Header r) headerUsername in
  let listed := Get (URLQuery r) "namespace" in
  (calls (Status client r st) = [CallGetBookingStatus ns app] ∧
   after (Status client r st) = (Client_GetBookingStatus client ns app st).1) ∧
  (username ≠ "" →
   calls (Book client r st) = [CallBookApp ns app username] ∧
   after (Book client r st) = (Client_BookApp client ns app username st).1) ∧
  (username ≠ "" →
   calls (Unbook client r st) =
     [CallUnbookApp ns app username (isAdmin r)] ∧
   after (Unbook client r st) =
     (Client_UnbookApp client ns app username (isAdmin r) st).1) ∧
  (calls (List client r st) =
     [CallListBookings (if bool_decide (listed = "") then "argocd"
                        else listed)] ∧
   after (List client r st) =
     (Client_ListBookings client
        (if bool_decide (listed = "") then "argocd" else listed) st).1).
Proof.
  intros Hparse username listed. subst username listed.
  split; [|split; [|split]].
  - unfold Status. rewrite Hparse. cbn.
    by destruct (Client_GetBookingStatus client ns app st)
      as [st' [[bookedBy bookedAt] [e|]]].
  - intros Huser. unfold Book. rewrite Hparse. cbn.
    rewrite bool_decide_eq_false_2 by done.
    destruct (Client_BookApp client ns app _ st) as [st' [e|]]; cbn; [|done].
    by destruct (strings_Contains e "conflict:").
  - intros Huser. unfold Unbook. rewrite Hparse. cbn.
    rewrite bool_decide_eq_false_2 by done.
    destruct (Client_UnbookApp client ns app _ _ st) as [st' [e|]]; cbn;
      [|done].
    by destruct (strings_Contains e "forbidden:").
  - unfold List.
    by destruct (Client_ListBookings client _ st) as [st' [bookings [e|]]].
Qed.

(** How booking answers the client's outcome: 200 exactly on success; 409
    exactly on an error whose text contains conflict:, and then the body
    carries that text; 500 on every other error, and then the body carries
    the fixed text and not the client's. *)
Lemma Book_outcomes r st (ns app : string) (st' : S) (err : error) :
  parseAppHeader r = (ns, app, true) →
  Get (Header r) headerUsername ≠ "" →
  Client_BookApp client ns app (Get (Header r) headerUsername) st =
    (st', err) →
  response (Book client r st) =
    match err with
    | None => writeJSON 200 (JObject [("status", JString "booked")])
    | Some e =>
        if strings_Contains e "conflict:"
        then writeJSON 409 (JObject [("error", JString e)])
        else writeJSON 500
               (JObject [("error", JString "failed to book application")])
    end.
Proof.
  intros Hparse Huser Hcall. unfold Book. rewrite Hparse. cbn.
  rewrite bool_decide_eq_false_2 by done. rewrite Hcall.
  destruct err as [e|]; [|done]. by destruct (strings_Contains e "conflict:").
Qed.

(** How unbooking answers the client's outcome: 200 exactly on success; 403
    exactly on an error whose text contains forbidden:, and then the body
    carries that text; 500 on every other error, with the fixed text. *)
Lemma Unbook_outcomes r st (ns app : string) (st' : S) (err : error) :
  parseAppHeader r = (ns, app, true) →
  Get (Header r) headerUsername ≠ "" →
  Client_UnbookApp client ns app (Get (Header r) headerUsername) (isAdmin r)
    st = (st', err) →
  response (Unbook client r st) =
    match err with
    | None => writeJSON 200 (JObject [("status", JString "unbooked")])
    | Some e =>
        if strings_Contains e "forbidden:"
        then writeJSON 403 (JObject [("error", JString e)])
        else writeJSON 500
               (JObject [("error", JString "failed to unbook application")])
    end.
Proof.
  intros Hparse Huser Hcall. unfold Unbook. rewrite Hparse. cbn.
  rewrite bool_decide_eq_false_2 by done. rewrite Hcall.
  destruct err as [e|]; [|done]. by destruct (strings_Contains e "forbidden:").
Qed.

End http_outcomes.

Section http_over_cluster.
Context `{GoLib}.
Import handler.

Implicit Types (r : Request) (c : k8s.Cluster) (now : Time).

(** X20. Booking over the cluster: an Unlocked application is booked and the
    answer is 200, and the holder is the caller when the caller's identity is
    text that JSON encoding leaves as it is; one held by the caller is left
    as it is and the answer is 200; one held by somebody else is left as it
    is and the answer is 409 with the conflict text naming the holder; for
    one that does not exist nothing changes and the answer is 500 with the
    fixed text, unless the wrapped store error contains conflict:. *)
Theorem Book_over_cluster now r c (ns app : string) :
  parseAppHeader r = (ns, app, true) →
  Get (Header r) headerUsername ≠ "" →
  let username := Get (Header r) headerUsername in
  let served := Book (NewClientFromDynamic now) r c in
  match k8s.lock_state c ns app with
  | Some k8s.Unlocked =>
      response served =
        writeJSON 200 (JObject [("status", JString "booked")]) ∧
      (json_String username = username →
       k8s.lock_state (after served) ns app =
         Some (k8s.Held username
                 (json_String (time_Format time_RFC3339 (time_UTC now)))))
  | Some (k8s.Held holder acquiredAt) =>
      k8s.objects (after served) = k8s.objects c ∧
      response served =
        if bool_decide (holder = username)
        then writeJSON 200 (JObject [("status", JString "booked")])
        else writeJSON 409
               (JObject [("error",
                          JString ("conflict: application already booked by "
                                   +:+ holder))])
  | None =>
      k8s.objects (after served) = k8s.objects c ∧
      let e := "failed to get application " +:+ ns +:+ "/" +:+ app +:+ ": "
               +:+ k8s.notFound app in
      response served =
        if strings_Contains e "conflict:"
        then writeJSON 409 (JObject [("error", JString e)])
        else writeJSON 500
               (JObject [("error", JString "failed to book application")])
  end.
Proof.
  intros Hparse Huser username served. subst served.
  unfold Book. rewrite Hparse. cbn [negb].
  rewrite bool_decide_eq_false_2 by done. fold username.
  cbn [NewClientFromDynamic Client_BookApp].
  unfold k8s.lock_state.
  destruct (k8s.objects c !! (ns, app)) as [anns|] eqn:Hobj; cbn [fmap option_fmap option_map].
  2: { rewrite (BookApp_missing _ _ _ _ _ Hobj).
       by destruct (strings_Contains _ "conflict:"). }
  destruct (k8s.lock_of anns) as [|holder acquiredAt] eqn:Hlock.
  - rewrite (BookApp_free _ _ _ _ _ _ Hobj Hlock Huser). fold username. cbn.
    split; [done|]. intros ->. rewrite lookup_insert_eq. cbn. f_equal.
    by apply lock_of_booked.
  - case_bool_decide as Hsame.
    + subst holder.
      rewrite (BookApp_same now _ _ username _ _ Hobj) by by rewrite Hlock.
      done.
    + rewrite (BookApp_other _ _ _ _ _ _ _ _ Hobj Hlock Hsame). done.
Qed.

(** X21. Unbooking over the cluster: an Unlocked application stays so and the
    answer is 200; one that is Held is released, with answer 200, when the
    caller is the holder or the groups header names the privileged group,
    and otherwise stays Held, with answer 403 and the text naming the
    holder. *)
Theorem Unbook_over_cluster now r c (ns app : string) :
  parseAppHeader r = (ns, app, true) →
  Get (Header r) headerUsername ≠ "" →
  let username := Get (Header r) headerUsername in
  let served := Unbook (NewClientFromDynamic now) r c in
  match k8s.lock_state c ns app with
  | Some k8s.Unlocked =>
      k8s.objects (after served) = k8s.objects c ∧
      response served =
        writeJSON 200 (JObject [("status", JString "unbooked")])
  | Some (k8s.Held holder acquiredAt) =>
      if bool_decide (holder = username) || isAdmin r
      then response served =
             writeJSON 200 (JObject [("status", JString "unbooked")]) ∧
           k8s.lock_state (after served) ns app = Some k8s.Unlocked
      else response served =
             writeJSON 403
               (JObject [("error",
                          JString ("forbidden: application is booked by " +:+
                                   holder +:+
                                   ", only they or an admin can unbook"))]) ∧
           k8s.objects (after served) = k8s.objects c
  | None => k8s.objects (after served) = k8s.objects c
  end.
Proof.
  intros Hparse Huser username served. subst served.
  unfold Unbook. rewrite Hparse. cbn [negb].
  rewrite bool_decide_eq_false_2 by done. fold username.
  cbn [NewClientFromDynamic Client_UnbookApp].
  unfold k8s.lock_state.
  destruct (k8s.objects c !! (ns, app)) as [anns|] eqn:Hobj; cbn [fmap option_fmap option_map].
  2: { rewrite (UnbookApp_missing _ _ _ _ _ Hobj).
       by destruct (strings_Contains _ "forbidden:"). }
  destruct (k8s.lock_of anns) as [|holder acquiredAt] eqn:Hlock.
  - by rewrite (UnbookApp_free _ _ _ _ _ _ Hobj Hlock).
  - destruct (bool_decide (holder = username) || isAdmin r) eqn:Hok.
    + rewrite (UnbookApp_allowed _ _ username (isAdmin r) _ _ _ _ Hobj Hlock).
      2: { apply orb_true_iff in Hok as [Hh|Ha]; [left|by right].
           by apply bool_decide_eq_true in Hh. }
      cbn. split; [done|]. rewrite lookup_insert_eq. cbn. f_equal.
      apply lock_of_cleared.
    + apply orb_false_iff in Hok as [Hh Ha].
      apply bool_decide_eq_false in Hh. rewrite Ha.
      by rewrite (UnbookApp_refused _ _ _ _ _ _ _ Hobj Hlock Hh).
Qed.

(** X22. The status over the cluster never changes an object. An Unlocked
    application is reported as not booked, with no holder and no time; a Held
    one as booked by its holder at the time its acquired-at field parses to,
    the zero time when it does not parse; an application that does not exist
    is answered 500. *)
Theorem Status_over_cluster now r c (ns app : string) :
  parseAppHeader r = (ns, app, true) →
  let served := Status (NewClientFromDynamic now) r c in
  k8s.objects (after served) = k8s.objects c ∧
  response served =
    match k8s.lock_state c ns app with
    | Some k8s.Unlocked => writeJSON 200 (JObject [("booked", JBool false)])
    | Some (k8s.Held holder acquiredAt) =>
        writeJSON 200
          (JObject
             ([("booked", JBool true); ("bookedBy", JString holder)] ++
              omitempty "bookedAt"
                (time_Format "2006-01-02T15:04:05Z"
                   (time_UTC
                      (default time_Zero
                         (time_Parse time_RFC3339 acquiredAt))))))
    | None =>
        writeJSON 500
          (JObject [("error", JString "failed to get booking status")])
    end.
Proof.
  intros Hparse served. subst served.
  unfold Status. rewrite Hparse. cbn [negb].
  cbn [NewClientFromDynamic Client_GetBookingStatus].
  unfold k8s.lock_state.
  destruct (k8s.objects c !! (ns, app)) as [anns|] eqn:Hobj; cbn [fmap option_fmap option_map].
  2: { by rewrite (GetBookingStatus_missing _ _ _ Hobj). }
  rewrite (GetBookingStatus_found _ _ _ _ Hobj).
  destruct (k8s.lock_of anns) as [|holder acquiredAt] eqn:Hlock; [done|].
  pose proof (lock_of_Held _ _ _ Hlock) as Hholder.
  cbn. rewrite !(bool_decide_eq_true_2 (holder ≠ "")) by done.
  split; [done|]. unfold encode_statusResponse, omitempty. cbn.
  by rewrite (bool_decide_eq_false_2 (holder = "")) by done.
Qed.

End http_over_cluster.

Section http_over_cluster_more.
Context `{GoLib}.
Import handler.

Implicit Types (r : Request) (c : k8s.Cluster) (now : Time).

(** X23. While the store answers, the list over the cluster is answered 200 with an array, changes
    no object, and the array holds exactly the Held applications of one
    namespace: the one the query names, or argocd when it names none. *)
Theorem List_over_cluster now r c :
  let listed := Get (URLQuery r) "namespace" in
  let scope := if bool_decide (listed = "") then "argocd" else listed in
  let served := List (NewClientFromDynamic now) r c in
  k8s.objects (after served) = k8s.objects c ∧
  ∃ records : list k8s.Booking,
    response served = writeJSON 200 (JArray (encode_Booking <$> records)) ∧
    ∀ b, b ∈ records ↔
         k8s.Namespace b = scope ∧
         k8s.lock_state c (k8s.Namespace b) (k8s.AppName b) =
           Some (k8s.Held (k8s.BookedBy b) (k8s.BookedAt b)).
Proof.
  intros listed scope served. subst served. unfold List. fold listed scope.
  cbn [NewClientFromDynamic Client_ListBookings].
  assert (scope ≠ "") as Hscope.
  { subst scope. by case_bool_decide. }
  destruct (k8s.ListBookings scope c) as [c' [bookings err]] eqn:Hlist.
  assert (c' = (k8s.ListBookings scope c).1) as -> by by rewrite Hlist.
  assert (bookings = (k8s.ListBookings scope c).2.1) as Hb by by rewrite Hlist.
  assert (err = None) as ->.
  { by assert (err = (k8s.ListBookings scope c).2.2) as -> by by rewrite Hlist. }
  cbn. split; [done|]. exists (slice_items bookings). split.
  - by destruct bookings.
  - intros b. rewrite Hb, elem_of_ListBookings.
    unfold k8s.in_scope, k8s.NamespaceAll, k8s.keyOf. cbn. split.
    + intros [[?|?] ?]; done.
    + intros [? ?]. split; [by right|done].
Qed.

(** X24. An error is taken for a conflict, or for a refusal, by its text alone:
    a request to book an application that does not exist and whose name
    contains conflict: is answered 409, and a request to unbook one whose
    name contains forbidden: is answered 403, each with the wrapped store
    error as the body. *)
Theorem missing_resource_misclassified now r c (ns app : string) :
  parseAppHeader r = (ns, app, true) →
  Get (Header r) headerUsername ≠ "" →
  k8s.objects c !! (ns, app) = None →
  let e := "failed to get application " +:+ ns +:+ "/" +:+ app +:+ ": " +:+
           k8s.notFound app in
  (strings_Contains app "conflict:" = true →
   response (Book (NewClientFromDynamic now) r c) =
     writeJSON 409 (JObject [("error", JString e)])) ∧
  (strings_Contains app "forbidden:" = true →
   response (Unbook (NewClientFromDynamic now) r c) =
     writeJSON 403 (JObject [("error", JString e)])).
Proof.
  intros Hparse Huser Hobj e.
  assert (∀ sub, strings_Contains app sub = true →
                 strings_Contains e sub = true) as Hcontains.
  { intros sub Hsub. subst e.
    apply strings_Contains_app_l, strings_Contains_app_l,
      strings_Contains_app_l.
    by apply strings_Contains_app_r. }
  split; intros Hsub%Hcontains.
  - unfold Book. rewrite Hparse. cbn [negb].
    rewrite bool_decide_eq_false_2 by done.
    cbn [NewClientFromDynamic Client_BookApp].
    rewrite (BookApp_missing _ _ _ _ _ Hobj). fold e. by rewrite Hsub.
  - unfold Unbook. rewrite Hparse. cbn [negb].
    rewrite bool_decide_eq_false_2 by done.
    cbn [NewClientFromDynamic Client_UnbookApp].
    rewrite (UnbookApp_missing _ _ _ _ _ Hobj). fold e. by rewrite Hsub.
Qed.

End http_over_cluster_more.

Section identity.
Import handler.

Lemma Get_getStatus (appName project : string) :
  Get (Header (ui.getStatus appName project)) headerAppName = appName.
Proof. unfold Get, ui.getStatus. cbn. by rewrite lookup_insert_eq. Qed.

Lemma Get_bookApp (appName project username : string) :
  Get (Header (ui.bookApp appName project username)) headerAppName = appName ∧
  Get (Header (ui.bookApp appName project username)) headerUsername = username.
Proof.
  unfold Get, ui.bookApp. cbn. rewrite lookup_insert_eq.
  rewrite !lookup_insert_ne by done. by rewrite lookup_singleton_eq.
Qed.

(** X25. The identity the presentation client sends is read back by the backend
    as the same namespace and name, whenever both are non-empty and the
    namespace holds no colon (the name may); with it the caller sent along
    is read back too. *)
Theorem identity_round_trip (namespace name project username : string) :
  namespace ≠ "" →
  cut ":" namespace = None →
  name ≠ "" →
  parseAppHeader (ui.getStatus (ui.appIdentifier namespace name) project) =
    (namespace, name, true) ∧
  parseAppHeader
    (ui.bookApp (ui.appIdentifier namespace name) project username) =
    (namespace, name, true) ∧
  Get (Header (ui.bookApp (ui.appIdentifier namespace name) project username))
    headerUsername = username ∧
  ui.panelIdentifier (Some namespace) (Some name) =
    ui.appIdentifier namespace name.
Proof.
  intros Hns Hcolon Hname. split_and!.
  - apply parseAppHeader_ok. by rewrite Get_getStatus.
  - apply parseAppHeader_ok.
    by rewrite (proj1 (Get_bookApp _ project username)).
  - apply Get_bookApp.
  - unfold ui.panelIdentifier, ui.truthy.
    by rewrite !bool_decide_eq_false_2 by done.
Qed.

End identity.

Section coordinator_invariants.
Context `{GoLib}.
Import k8s.

Implicit Types (c : Cluster) (op : Op) (ops : list Op).

Lemma run_objects op c :
  match op with
  | OpBook _ namespace appName _ | OpUnbook namespace appName _ _ =>
      ∀ key, key ≠ (namespace, appName) →
             objects (run op c).1 !! key = objects c !! key
  end.
Proof.
  destruct op as [now ns app user|ns app user admin]; cbn [run]; intros key Hkey.
  - destruct (BookApp_objects now ns app user c) as [->|(anns & _ & ->)];
      [done|]. by rewrite lookup_insert_ne.
  - destruct (UnbookApp_objects ns app user admin c) as [->|(anns & _ & ->)];
      [done|]. by rewrite lookup_insert_ne.
Qed.

(** One call that is not a permitted release leaves a Held resource Held by
    the same holder with the same timestamp. *)
Lemma run_keeps_held op c (namespace appName holder acquiredAt : string) :
  lock_state c namespace appName = Some (Held holder acquiredAt) →
  ¬ releases (namespace, appName) holder op →
  lock_state (run op c).1 namespace appName = Some (Held holder acquiredAt).
Proof.
  intros Hstate Hop.
  pose proof Hstate as (anns & Hobj & Hlock)%lock_state_Some.
  pose proof (run_objects op c) as Hframe.
  destruct op as [now ns app user|ns app user admin]; cbn [run] in *.
  - destruct (decide ((namespace, appName) = (ns, app))) as [[= <- <-]|Hkey].
    + destruct (decide (holder = user)) as [->|Hne].
      * by rewrite (BookApp_same now _ _ user _ _ Hobj) by by rewrite Hlock.
      * by rewrite (BookApp_other _ _ _ _ _ _ _ _ Hobj Hlock Hne).
    + unfold lock_state in *. by rewrite Hframe.
  - destruct (decide ((namespace, appName) = (ns, app))) as [[= <- <-]|Hkey].
    + assert (holder ≠ user ∧ admin = false) as [Hne ->].
      { destruct admin; [destruct Hop; split; [done|by right]|].
        split; [|done]. intros ->. destruct Hop. split; [done|by left]. }
      by rewrite (UnbookApp_refused _ _ _ _ _ _ _ Hobj Hlock Hne).
    + unfold lock_state in *. by rewrite Hframe.
Qed.

(** One call that is not an acquire of the resource by a caller with a
    non-empty identity leaves an Unlocked resource Unlocked. *)
Lemma run_keeps_unlocked op c (namespace appName : string) :
  lock_state c namespace appName = Some Unlocked →
  ¬ acquires (namespace, appName) op →
  lock_state (run op c).1 namespace appName = Some Unlocked.
Proof.
  intros Hstate Hop.
  pose proof Hstate as (anns & Hobj & Hlock)%lock_state_Some.
  pose proof (run_objects op c) as Hframe.
  destruct op as [now ns app user|ns app user admin]; cbn [run] in *.
  - destruct (decide ((namespace, appName) = (ns, app))) as [[= <- <-]|Hkey].
    + assert (user = "") as ->.
      { destruct (decide (user = "")); [done|]. by destruct Hop. }
      by rewrite (BookApp_same now _ _ "" _ _ Hobj) by by rewrite Hlock.
    + unfold lock_state in *. by rewrite Hframe.
  - destruct (decide ((namespace, appName) = (ns, app))) as [[= <- <-]|Hkey].
    + by rewrite (UnbookApp_free _ _ _ _ _ _ Hobj Hlock).
    + unfold lock_state in *. by rewrite Hframe.
Qed.

(** X13. A lock is never taken over: along any sequence of acquires and releases,
    on this and on other resources, by any callers, a Held resource stays
    Held by the same holder with the same timestamp as long as the sequence
    holds no release of it by the holder or by a privileged caller. *)
Theorem lock_never_stolen ops c (namespace appName holder acquiredAt : string) :
  lock_state c namespace appName = Some (Held holder acquiredAt) →
  Forall (λ op, ¬ releases (namespace, appName) holder op) ops →
  lock_state (run_all ops c) namespace appName =
    Some (Held holder acquiredAt).
Proof.
  intros Hstate Hops. revert c Hstate.
  induction Hops as [|op ops Hop _ IH]; intros c Hstate; [done|].
  cbn. apply IH. by apply run_keeps_held.
Qed.

(** X14. A lock never appears by itself: along any sequence of acquires and
    releases an Unlocked resource stays Unlocked as long as the sequence
    holds no acquire of it by a caller with a non-empty identity. *)
Theorem lock_never_appears ops c (namespace appName : string) :
  lock_state c namespace appName = Some Unlocked →
  Forall (λ op, ¬ acquires (namespace, appName) op) ops →
  lock_state (run_all ops c) namespace appName = Some Unlocked.
Proof.
  intros Hstate Hops. revert c Hstate.
  induction Hops as [|op ops Hop _ IH]; intros c Hstate; [done|].
  cbn. apply IH. by apply run_keeps_unlocked.
Qed.

End coordinator_invariants.

Section coordinator_outcomes.
Context `{GoLib}.
Import k8s.

Implicit Types (c : Cluster) (now : Time).
Implicit Types (namespace appName username : string).

(** X8. While the store answers, an acquire succeeds exactly when the resource
    exists and is not held by somebody else; and whenever it succeeds for a
    caller whose identity is non-empty text that JSON encoding leaves as it
    is, that caller holds the resource afterwards. *)
Theorem BookApp_succeeds_iff now namespace appName username c :
  let result := BookApp now namespace appName username c in
  (result.2 = None ↔
   lock_state c namespace appName = Some Unlocked ∨
   ∃ acquiredAt,
     lock_state c namespace appName = Some (Held username acquiredAt)) ∧
  (result.2 = None → username ≠ "" → json_String username = username →
   ∃ acquiredAt,
     lock_state result.1 namespace appName =
       Some (Held username acquiredAt)).
Proof.
  intros result. subst result. unfold lock_state at 1 2.
  destruct (objects c !! (namespace, appName)) as [anns|] eqn:Hobj; cbn.
  2: { rewrite (BookApp_missing _ _ _ _ _ Hobj). cbn [fst snd].
       split; [|done]. split; [done|]. by intros [?|[? ?]]. }
  destruct (lock_of anns) as [|holder acquiredAt] eqn:Hlock.
  - destruct (decide (username = "")) as [->|Huser].
    + rewrite (BookApp_same now _ _ "" _ _ Hobj) by by rewrite Hlock.
      cbn [fst snd]. split; [|done]. split; [by left|done].
    + pose proof (BookApp_free_state now namespace appName username c) as Hs.
      rewrite (BookApp_free _ _ _ _ _ _ Hobj Hlock Huser) in *.
      cbn [fst snd] in *. split; [split; [by left|done]|].
      intros _ _ Hjson. eexists. apply Hs; [|done|done].
      apply lock_state_Some. eauto.
  - destruct (decide (holder = username)) as [->|Hne].
    + rewrite (BookApp_same now _ _ username _ _ Hobj) by by rewrite Hlock.
      cbn [fst snd]. split; [split; [|done]|].
      * intros _. right. by exists acquiredAt.
      * intros _ _ _. exists acquiredAt. rewrite lock_state_record.
        apply lock_state_Some. eauto.
    + rewrite (BookApp_other _ _ _ _ _ _ _ _ Hobj Hlock Hne). cbn [fst snd].
      split; [|done]. split; [done|].
      intros [[=]|[ts [= ? ?]]]. done.
Qed.

(** X9. While the store answers, a release succeeds exactly when the resource is Unlocked, or is Held and
    the caller is the holder or privileged; and whenever it succeeds the
    resource is Unlocked afterwards. *)
Theorem UnbookApp_succeeds_iff namespace appName username (isAdmin : bool) c :
  let result := UnbookApp namespace appName username isAdmin c in
  (result.2 = None ↔
   lock_state c namespace appName = Some Unlocked ∨
   ∃ holder acquiredAt,
     lock_state c namespace appName = Some (Held holder acquiredAt) ∧
     (holder = username ∨ isAdmin = true)) ∧
  (result.2 = None →
   lock_state result.1 namespace appName = Some Unlocked).
Proof.
  intros result. subst result. unfold lock_state at 1 2.
  destruct (objects c !! (namespace, appName)) as [anns|] eqn:Hobj; cbn.
  2: { rewrite (UnbookApp_missing _ _ _ _ _ Hobj). cbn [fst snd].
       split; [|done]. split; [done|]. by intros [?|(? & ? & ? & _)]. }
  destruct (lock_of anns) as [|holder acquiredAt] eqn:Hlock.
  - rewrite (UnbookApp_free _ _ _ _ _ _ Hobj Hlock). cbn [fst snd].
    split; [split; [by left|done]|].
    intros _. rewrite lock_state_record. apply lock_state_Some. eauto.
  - destruct (decide (holder = username ∨ isAdmin = true)) as [Hok|Hno].
    + pose proof (UnbookApp_allowed_state namespace appName username isAdmin
                    c holder acquiredAt) as Hs.
      rewrite (UnbookApp_allowed _ _ _ _ _ _ _ _ Hobj Hlock Hok) in *.
      cbn [fst snd] in *. split; [split; [|done]|].
      * intros _. right. by exists holder, acquiredAt.
      * intros _. apply Hs; [|done]. apply lock_state_Some. eauto.
    + assert (holder ≠ username ∧ isAdmin = false) as [Hne ->].
      { destruct isAdmin; [destruct Hno; by right|].
        split; [|done]. intros ->. destruct Hno. by left. }
      rewrite (UnbookApp_refused _ _ _ _ _ _ _ Hobj Hlock Hne).
      cbn [fst snd]. split; [|done]. split; [done|].
      intros [[=]|(h & ts & [= <- <-] & [?|?])]; done.
Qed.

End coordinator_outcomes.

(** * The further properties on sample data *)

Section more_samples.
Import k8s.

Lemma GetBookingStatus_reports_sample :
  (GetBookingStatus (H := RefLib.lib) "argocd" "my-app" Sample.byAlice).2 =
    ("alice", Sample.at10, None) ∧
  (GetBookingStatus (H := RefLib.lib) "argocd" "my-app" Sample.partial).2 =
    ("alice", RefLib.zero, None).
Proof.
  split.
  - apply (GetBookingStatus_reports (H := RefLib.lib) "argocd" "my-app"
             Sample.byAlice (Held "alice" "2026-01-15T10:00:00Z")).
    reflexivity.
  - apply (GetBookingStatus_reports (H := RefLib.lib) "argocd" "my-app"
             Sample.partial (Held "alice" "")).
    reflexivity.
Defined.

Lemma missing_resource_errors_sample :
  (BookApp (H := RefLib.lib) Sample.at10 "argocd" "gone" "alice"
     Sample.free).2 =
    Some ("failed to get application argocd/gone: " +:+
          notFound (H := RefLib.lib) "gone") ∧
  objects (BookApp (H := RefLib.lib) Sample.at10 "argocd" "gone" "alice"
             Sample.free).1 = objects Sample.free.
Proof.
  pose proof (missing_resource_errors (H := RefLib.lib) Sample.at10
                "argocd" "gone" "alice" Sample.free false) as Hmissing.
  destruct Hmissing as (_ & Hbook & _ & Hobjects & _).
  - reflexivity.
  - exact (conj Hbook Hobjects).
Defined.

Lemma acquire_release_round_trip_sample :
  let acquired :=
    BookApp (H := RefLib.lib) Sample.at10 "argocd" "my-app" "alice"
      Sample.free in
  let released :=
    UnbookApp (H := RefLib.lib) "argocd" "my-app" "alice" false acquired.1 in
  acquired.2 = None ∧ released.2 = None ∧
  lock_state released.1 "argocd" "my-app" = Some Unlocked.
Proof.
  pose proof (acquire_release_round_trip (H := RefLib.lib) Sample.at10
                "argocd" "my-app" "alice" Sample.free false) as Htrip.
  destruct Htrip as (Hacquired & Hreleased & Hstate & _).
  - reflexivity.
  - discriminate.
  - reflexivity.
  - exact (conj Hacquired (conj Hreleased Hstate)).
Defined.

Lemma release_then_acquire_sample :
  let released :=
    UnbookApp (H := RefLib.lib) "argocd" "my-app" "carol" true
      Sample.byAlice in
  let acquired :=
    BookApp (H := RefLib.lib) Sample.at10 "argocd" "my-app" "bob" released.1
  in
  released.2 = None ∧ acquired.2 = None ∧
  lock_state acquired.1 "argocd" "my-app" =
    Some (Held "bob" "2026-01-15T10:00:00Z").
Proof.
  apply (release_then_acquire (H := RefLib.lib) Sample.at10
           "argocd" "my-app" Sample.byAlice "alice" "2026-01-15T10:00:00Z"
           "carol" "bob" true).
  - reflexivity.
  - right. reflexivity.
  - discriminate.
  - reflexivity.
Defined.

Lemma acquire_twice_keeps_first_stamp_sample :
  let later := RefLib.mkCivilTime 2026 1 16 9 30 0 in
  let once :=
    BookApp (H := RefLib.lib) Sample.at10 "argocd" "my-app" "alice"
      Sample.free in
  let twice :=
    BookApp (H := RefLib.lib) later "argocd" "my-app" "alice" once.1 in
  twice.2 = None ∧
  lock_state twice.1 "argocd" "my-app" =
    Some (Held "alice" "2026-01-15T10:00:00Z").
Proof.
  pose proof (acquire_twice_keeps_first_stamp (H := RefLib.lib) Sample.at10
                (RefLib.mkCivilTime 2026 1 16 9 30 0)
                "argocd" "my-app" "alice" Sample.free) as Htwice.
  destruct Htwice as (Herr & _ & _ & Hstate).
  - reflexivity.
  - discriminate.
  - reflexivity.
  - exact (conj Herr Hstate).
Defined.

Lemma ListBookings_follows_writes_sample :
  mkBooking "my-app" "argocd" "alice" "2026-01-15T10:00:00Z" ∈
    slice_items
      (ListBookings "argocd"
         (BookApp (H := RefLib.lib) Sample.at10 "argocd" "my-app" "alice"
            Sample.free).1).2.1.
Proof.
  pose proof (ListBookings_follows_writes (H := RefLib.lib) Sample.at10
                "argocd" "argocd" "my-app" "alice" Sample.free) as Hlist.
  destruct Hlist as (_ & Hin & _).
  - reflexivity.
  - discriminate.
  - reflexivity.
  - right. reflexivity.
  - exact Hin.
Defined.

Lemma lock_never_stolen_sample :
  lock_state
    (run_all (H := RefLib.lib)
       [OpBook (H := RefLib.lib) Sample.at10 "argocd" "my-app" "bob";
        OpUnbook "argocd" "my-app" "bob" false;
        OpUnbook "argocd" "other" "bob" true;
        OpBook (H := RefLib.lib) Sample.at10 "argocd" "my-app" ""]
       Sample.byAlice) "argocd" "my-app" =
    Some (Held "alice" "2026-01-15T10:00:00Z").
Proof.
  apply (lock_never_stolen (H := RefLib.lib)).
  - reflexivity.
  - repeat constructor.
    + intros [].
    + intros [_ [Hwho|Hadmin]]; discriminate.
    + intros [Hkey _]. discriminate.
    + intros [].
Defined.

Lemma lock_never_appears_sample :
  lock_state
    (run_all (H := RefLib.lib)
       [OpUnbook (H := RefLib.lib) "argocd" "my-app" "bob" true;
        OpBook (H := RefLib.lib) Sample.at10 "argocd" "my-app" "";
        OpBook (H := RefLib.lib) Sample.at10 "argocd" "other" "bob"]
       Sample.free) "argocd" "my-app" = Some Unlocked.
Proof.
  apply (lock_never_appears (H := RefLib.lib)).
  - reflexivity.
  - repeat constructor.
    + intros [].
    + intros [_ Huser]. by apply Huser.
    + intros [Hkey _]. discriminate.
Defined.

End more_samples.

Section more_http_samples.
Import handler.

Lemma handlers_call_once_sample :
  calls
    (Book (H := RefLib.lib)
       (NewClientFromDynamic (H := RefLib.lib) Sample.at10)
       (Sample.request [("Argocd-Application-Name", "argocd:my-app");
                        ("Argocd-Username", "alice")])
       Sample.free) = [CallBookApp "argocd" "my-app" "alice"].
Proof.
  pose proof (handlers_call_once (H := RefLib.lib)
                (NewClientFromDynamic (H := RefLib.lib) Sample.at10)
                (Sample.request [("Argocd-Application-Name", "argocd:my-app");
                                 ("Argocd-Username", "alice")])
                Sample.free "argocd" "my-app") as Honce.
  destruct Honce as (_ & Hbook & _).
  - reflexivity.
  - apply Hbook. discriminate.
Defined.

Lemma Book_over_cluster_sample :
  response
    (Book (H := RefLib.lib)
       (NewClientFromDynamic (H := RefLib.lib) Sample.at10)
       (Sample.request [("Argocd-Application-Name", "argocd:my-app");
                        ("Argocd-Username", "bob")])
       Sample.byAlice) =
  writeJSON 409
    (JObject [("error",
               JString "conflict: application already booked by alice")]).
Proof.
  pose proof (Book_over_cluster (H := RefLib.lib) Sample.at10
                (Sample.request [("Argocd-Application-Name", "argocd:my-app");
                                 ("Argocd-Username", "bob")])
                Sample.byAlice "argocd" "my-app") as Hbook.
  destruct Hbook as [_ Hresponse].
  - reflexivity.
  - discriminate.
  - exact Hresponse.
Defined.

Lemma Unbook_over_cluster_sample :
  k8s.lock_state
    (after
       (Unbook (H := RefLib.lib)
          (NewClientFromDynamic (H := RefLib.lib) Sample.at10)
          (Sample.request [("Argocd-Application-Name", "argocd:my-app");
                           ("Argocd-Username", "bob");
                           ("Argocd-User-Groups", "developers, admin")])
          Sample.byAlice)) "argocd" "my-app" = Some k8s.Unlocked.
Proof.
  pose proof (Unbook_over_cluster (H := RefLib.lib) Sample.at10
                (Sample.request [("Argocd-Application-Name", "argocd:my-app");
                                 ("Argocd-Username", "bob");
                                 ("Argocd-User-Groups", "developers, admin")])
                Sample.byAlice "argocd" "my-app") as Hunbook.
  destruct Hunbook as [_ Hstate].
  - reflexivity.
  - discriminate.
  - exact Hstate.
Defined.

Lemma Status_over_cluster_sample :
  response
    (Status (H := RefLib.lib)
       (NewClientFromDynamic (H := RefLib.lib) Sample.at10)
       (Sample.request [("Argocd-Application-Name", "argocd:my-app")])
       Sample.partial) =
  writeJSON 200
    (JObject [("booked", JBool true); ("bookedBy", JString "alice");
              ("bookedAt", JString "0001-01-01T00:00:00Z")]).
Proof.
  pose proof (Status_over_cluster (H := RefLib.lib) Sample.at10
                (Sample.request [("Argocd-Application-Name", "argocd:my-app")])
                Sample.partial "argocd" "my-app") as Hstatus.
  destruct Hstatus as [_ Hresponse].
  - reflexivity.
  - exact Hresponse.
Defined.

Lemma missing_resource_misclassified_sample :
  Code
    (response
       (Book (H := RefLib.lib)
          (NewClientFromDynamic (H := RefLib.lib) Sample.at10)
          (Sample.request [("Argocd-Application-Name", "argocd:conflict:x");
                           ("Argocd-Username", "bob")])
          Sample.free)) = 409%Z.
Proof.
  pose proof (missing_resource_misclassified (H := RefLib.lib) Sample.at10
                (Sample.request
                   [("Argocd-Application-Name", "argocd:conflict:x");
                    ("Argocd-Username", "bob")])
                Sample.free "argocd" "conflict:x") as Hmis.
  destruct Hmis as [Hbook _].
  - reflexivity.
  - discriminate.
  - reflexivity.
  - rewrite Hbook; reflexivity.
Defined.

Lemma identity_round_trip_sample :
  parseAppHeader (ui.getStatus (ui.appIdentifier "argocd" "my-app") "default")
  = ("argocd", "my-app", true).
Proof.
  apply (identity_round_trip "argocd" "my-app" "default" "alice").
  - discriminate.
  - reflexivity.
  - discriminate.
Defined.

End more_http_samples.
